(** * terraform-provider-circleci: the API client and the resource adapter

    A shallow embedding of [circleci/client.go] and
    [circleci/resource_circleci_environment_variable.go].

    Go strings are byte sequences and are modelled by [string] (a list of
    8-bit [ascii] characters).  A Go [error] that may be [nil] is an
    [option error]; an [int] is a [Z].  Functions that perform HTTP I/O
    thread an explicit world through their calls and may panic. *)

From Stdlib Require Import ZArith String Ascii List Lia Bool DecimalString.
From stdpp Require Import gmap strings.

Open Scope Z_scope.

(* ================================================================== *)
(** * Part I: definitions *)
(* ================================================================== *)

(** ** Go values *)

(** An [error] value is identified by the text its [Error()] method
    returns; [fmt.Errorf] with an already formatted text builds one. *)
Record error : Type := Errorf { Error : string }.

(** [%d] of [fmt.Sprintf] / [fmt.Errorf] on an [int]. *)
Definition formatInt (n : Z) : string := NilZero.string_of_int (Z.to_int n).

(** [strings.Contains s sub]. *)
Fixpoint Contains (s sub : string) : bool :=
  String.prefix sub s
  || match s with
     | EmptyString => false
     | String _ t => Contains t sub
     end.

(** Every byte of [s] satisfies [p]. *)
Fixpoint allb (p : ascii -> bool) (s : string) : bool :=
  match s with
  | EmptyString => true
  | String a t => p a && allb p t
  end.

(* ------------------------------------------------------------------ *)
(** ** Regular expressions (package [regexp]) *)

Module regexp.

(** The syntax tree of the fragment of RE2 that the client's pattern
    uses.  A character class is given by its membership test on bytes:
    the classes of the pattern are ASCII classes, and no byte of a
    multi-byte UTF-8 sequence belongs to them. *)
Inductive Regexp : Type :=
| BeginText                        (* ^  (no multi-line flag) *)
| EndText                          (* $  (no multi-line flag) *)
| CharClass (cls : ascii -> bool)  (* [...] *)
| Concat (r1 r2 : Regexp)
| Star (r : Regexp)
| Plus (r : Regexp).

(** A continuation receives the offset reached and the text that is left. *)
Definition cont : Type := nat -> string -> bool.

(** Zero or more rounds of [step], each of which has to consume input. *)
Fixpoint iterate (step : cont -> cont) (k : cont) (fuel : nat) : cont :=
  fun i s =>
    k i s
    || match fuel with
       | O => false
       | S fuel' =>
           step (fun j t => (String.length t <? String.length s)%nat
                            && iterate step k fuel' j t) i s
       end.

(** [matchHere r k i s]: [r] matches a prefix of [s], which starts at
    offset [i] of the whole text, and [k] accepts what follows. *)
Fixpoint matchHere (r : Regexp) (k : cont) (i : nat) (s : string) {struct r} : bool :=
  match r with
  | BeginText => (i =? 0)%nat && k i s
  | EndText => match s with EmptyString => k i s | String _ _ => false end
  | CharClass cls =>
      match s with
      | EmptyString => false
      | String a t => cls a && k (S i) t
      end
  | Concat r1 r2 => matchHere r1 (matchHere r2 k) i s
  | Star r1 => iterate (matchHere r1) k (S (String.length s)) i s
  | Plus r1 => matchHere r1 (iterate (matchHere r1) k (S (String.length s))) i s
  end.

(** The unanchored search of [MatchString]: a match may start at any offset. *)
Fixpoint searchFrom (re : Regexp) (i : nat) (s : string) : bool :=
  matchHere re (fun _ _ => true) i s
  || match s with
     | EmptyString => false
     | String _ t => searchFrom re (S i) t
     end.

(** The method [MatchString] of a compiled expression. *)
Definition MatchString (re : Regexp) (s : string) : bool := searchFrom re 0 s.

(** The POSIX classes of the pattern, on bytes. *)
Definition between (lo hi : N) (a : ascii) : bool :=
  (lo <=? N_of_ascii a)%N && (N_of_ascii a <=? hi)%N.

Definition upper : ascii -> bool := between 65 90.    (* A-Z *)
Definition lower : ascii -> bool := between 97 122.   (* a-z *)
Definition digit : ascii -> bool := between 48 57.    (* 0-9 *)

(** [[:alpha:]] is [A-Za-z]. *)
Definition alpha (a : ascii) : bool := upper a || lower a.

(** [[:word:]] is [0-9A-Za-z_]. *)
Definition word (a : ascii) : bool := digit a || alpha a || (N_of_ascii a =? 95)%N.

End regexp.

(* ------------------------------------------------------------------ *)
(** ** Name validation (client.go) *)

(** [regexp.MustCompile("^[[:alpha:]]+[[:word:]]*$")]. *)
Definition envVarNameRegexp : regexp.Regexp :=
  regexp.Concat regexp.BeginText
    (regexp.Concat (regexp.Plus (regexp.CharClass regexp.alpha))
       (regexp.Concat (regexp.Star (regexp.CharClass regexp.word))
          regexp.EndText)).

Definition ValidateEnvironmentVariableName (name : string) : bool :=
  regexp.MatchString envVarNameRegexp name.

(** The name invariant in the words of the specification: a letter, then
    letters, digits or underscores. *)
Definition letter_then_word (name : string) : bool :=
  match name with
  | EmptyString => false
  | String a t => regexp.alpha a && allb regexp.word t
  end.

(** A byte that is neither a letter nor a digit. *)
Definition symbol (a : ascii) : bool := negb (regexp.alpha a) && negb (regexp.digit a).

(* ------------------------------------------------------------------ *)
(** ** Bytes *)

(** A Go [byte] is a number below 256; [[]byte(str)] lists the bytes of a string. *)
Definition byte_of_ascii (a : ascii) : Z := Z.of_N (N_of_ascii a).

Definition bytes_of_string (str : string) : list Z :=
  map byte_of_ascii (list_ascii_of_string str).

(* ------------------------------------------------------------------ *)
(** ** Package [encoding/base64] *)

Module base64.

(** The alphabet of [StdEncoding]; the padding character is [=]. *)
Definition encodeStd : string :=
  "ABCDEFGHIJKLMNOPQRSTUVWXYZabcdefghijklmnopqrstuvwxyz0123456789+/".

Definition StdPadding : ascii := "="%char.

(** The character of the 6-bit group [v land 0x3F]. *)
Definition enc (v : Z) : ascii :=
  match String.get (Z.to_nat (Z.land v 63)) encodeStd with
  | Some a => a
  | None => StdPadding
  end.

(** [StdEncoding.EncodeToString]: three bytes make four characters; a
    remainder of one or two bytes is padded to four characters. *)
Fixpoint EncodeToString (src : list Z) : string :=
  match src with
  | [] => EmptyString
  | [a] =>
      let v := Z.shiftl a 16 in
      String (enc (Z.shiftr v 18)) (String (enc (Z.shiftr v 12))
        (String StdPadding (String StdPadding EmptyString)))
  | [a; b] =>
      let v := Z.lor (Z.shiftl a 16) (Z.shiftl b 8) in
      String (enc (Z.shiftr v 18)) (String (enc (Z.shiftr v 12))
        (String (enc (Z.shiftr v 6)) (String StdPadding EmptyString)))
  | a :: b :: c :: rest =>
      let v := Z.lor (Z.lor (Z.shiftl a 16) (Z.shiftl b 8)) c in
      String (enc (Z.shiftr v 18)) (String (enc (Z.shiftr v 12))
        (String (enc (Z.shiftr v 6)) (String (enc v) (EncodeToString rest))))
  end.

End base64.

(* ------------------------------------------------------------------ *)
(** ** Package [crypto/sha256] *)

Module sha256.

(** 32-bit words are numbers below [2^32]; addition wraps around. *)
Definition wrap32 (x : Z) : Z := x mod 4294967296.
Definition add32 (x y : Z) : Z := wrap32 (x + y).
Definition not32 (x : Z) : Z := Z.lxor x 4294967295.

(** [bits.RotateLeft32 x (-n)] and [x >> n]. *)
Definition rotr (n x : Z) : Z :=
  wrap32 (Z.lor (Z.shiftr x n) (Z.shiftl x (32 - n))).
Definition shr (n x : Z) : Z := Z.shiftr x n.

(** The integer part of the cube root of [x], bit by bit from [2^n] down. *)
Fixpoint cbrt (n : nat) (x acc : Z) : Z :=
  let try := acc + 2 ^ Z.of_nat n in
  let acc' := if try * try * try <=? x then try else acc in
  match n with
  | O => acc'
  | S n' => cbrt n' x acc'
  end.

(** The first 64 prime numbers. *)
Definition primes : list Z :=
  [ 2; 3; 5; 7; 11; 13; 17; 19; 23; 29; 31; 37; 41; 43; 47; 53;
    59; 61; 67; 71; 73; 79; 83; 89; 97; 101; 103; 107; 109; 113; 127; 131;
    137; 139; 149; 151; 157; 163; 167; 173; 179; 181; 191; 193; 197; 199; 211; 223;
    227; 229; 233; 239; 241; 251; 257; 263; 269; 271; 277; 281; 283; 293; 307; 311 ].

(** The initial hash value: the first 32 bits of the fractional parts
    of the square roots of the first 8 primes ([init0] to [init7]). *)
Definition init : Z * Z * Z * Z * Z * Z * Z * Z :=
  Eval vm_compute in
    let h (p : Z) := wrap32 (Z.sqrt (p * 2 ^ 64)) in
    (h 2, h 3, h 5, h 7, h 11, h 13, h 17, h 19).

(** The round constants: the first 32 bits of the fractional parts of
    the cube roots of the first 64 primes. *)
Definition _K : list Z :=
  Eval vm_compute in map (fun p => wrap32 (cbrt 34 (p * 2 ^ 96) 0)) primes.

(** Big-endian words of a block, and the bytes of a word. *)
Fixpoint words (p : list Z) : list Z :=
  match p with
  | b0 :: b1 :: b2 :: b3 :: rest =>
      Z.lor (Z.lor (Z.lor (Z.shiftl b0 24) (Z.shiftl b1 16)) (Z.shiftl b2 8)) b3
      :: words rest
  | _ => []
  end.

Definition putUint32 (w : Z) : list Z :=
  [ Z.land (Z.shiftr w 24) 255; Z.land (Z.shiftr w 16) 255;
    Z.land (Z.shiftr w 8) 255; Z.land w 255 ].

(** The message schedule, newest word first: [w[i]] is computed from
    [w[i-2]], [w[i-7]], [w[i-15]] and [w[i-16]]. *)
Fixpoint schedule (n : nat) (rw : list Z) : list Z :=
  match n with
  | O => rw
  | S n' =>
      let v1 := nth 1 rw 0 in
      let t1 := Z.lxor (Z.lxor (rotr 17 v1) (rotr 19 v1)) (shr 10 v1) in
      let v2 := nth 14 rw 0 in
      let t2 := Z.lxor (Z.lxor (rotr 7 v2) (rotr 18 v2)) (shr 3 v2) in
      schedule n' (add32 (add32 (add32 t1 (nth 6 rw 0)) t2) (nth 15 rw 0) :: rw)
  end.

(** One round of the compression function. *)
Definition round (st : Z * Z * Z * Z * Z * Z * Z * Z) (kw : Z * Z)
  : Z * Z * Z * Z * Z * Z * Z * Z :=
  let '(a, b, c, d, e, f, g, h) := st in
  let t1 :=
    add32 (add32 (add32 (add32 h
      (Z.lxor (Z.lxor (rotr 6 e) (rotr 11 e)) (rotr 25 e)))
      (Z.lxor (Z.land e f) (Z.land (not32 e) g)))
      (fst kw)) (snd kw) in
  let t2 :=
    add32 (Z.lxor (Z.lxor (rotr 2 a) (rotr 13 a)) (rotr 22 a))
          (Z.lxor (Z.lxor (Z.land a b) (Z.land a c)) (Z.land b c)) in
  (add32 t1 t2, a, b, c, add32 d t1, e, f, g).

(** [block] on one 64-byte chunk. *)
Definition block1 (hs : Z * Z * Z * Z * Z * Z * Z * Z) (p : list Z)
  : Z * Z * Z * Z * Z * Z * Z * Z :=
  let w := rev (schedule 48 (rev (words p))) in
  let '(a, b, c, d, e, f, g, h) := fold_left round (combine _K w) hs in
  let '(h0, h1, h2, h3, h4, h5, h6, h7) := hs in
  (add32 h0 a, add32 h1 b, add32 h2 c, add32 h3 d,
   add32 h4 e, add32 h5 f, add32 h6 g, add32 h7 h).

(** [block] on a whole number of chunks; [n] bounds their number. *)
Fixpoint block (n : nat) (hs : Z * Z * Z * Z * Z * Z * Z * Z) (p : list Z)
  : Z * Z * Z * Z * Z * Z * Z * Z :=
  match n, p with
  | S n', _ :: _ => block n' (block1 hs (firstn 64 p)) (skipn 64 p)
  | _, _ => hs
  end.

(** The padding of [checkSum]: a [0x80] byte, zeros up to 56 modulo 64,
    and the length in bits as a big-endian 64-bit number. *)
Definition padding (len : Z) : list Z :=
  let zeros := (55 - len) mod 64 in
  let bits := (8 * len) mod 18446744073709551616 in
  128 :: repeat 0 (Z.to_nat zeros)
  ++ putUint32 (Z.shiftr bits 32) ++ putUint32 (Z.land bits 4294967295).

(** [sha256.Sum256]. *)
Definition Sum256 (data : list Z) : list Z :=
  let p := data ++ padding (Z.of_nat (length data)) in
  let '(h0, h1, h2, h3, h4, h5, h6, h7) := block (length p) init p in
  putUint32 h0 ++ putUint32 h1 ++ putUint32 h2 ++ putUint32 h3
  ++ putUint32 h4 ++ putUint32 h5 ++ putUint32 h6 ++ putUint32 h7.

End sha256.

(* ------------------------------------------------------------------ *)
(** ** The stored form of the value (resource_circleci_environment_variable.go) *)

(** [hashString] does a sha256 checksum and encodes it in base64. *)
Definition hashString (str : string) : string :=
  let hash := sha256.Sum256 (bytes_of_string str) in
  base64.EncodeToString hash.

(* ------------------------------------------------------------------ *)
(** ** Control flow of Go functions *)

(** A call either returns or panics with a value. *)
Inductive outcome (A : Type) : Type :=
| Returned (a : A)
| Panicked (v : string).
Arguments Returned {A} a.
Arguments Panicked {A} v.

(** A Go function that may perform I/O on a world of type [W]. *)
Definition Go (W A : Type) : Type := W -> outcome A * W.

Definition ret {W A : Type} (a : A) : Go W A := fun w => (Returned a, w).

Definition panic {W A : Type} (v : string) : Go W A := fun w => (Panicked v, w).

Definition bind {W A B : Type} (m : Go W A) (k : A -> Go W B) : Go W B :=
  fun w =>
    match m w with
    | (Returned a, w') => k a w'
    | (Panicked v, w') => (Panicked v, w')
    end.

#[global] Instance Go_ret {W : Type} : MRet (Go W) := @ret W.
#[global] Instance Go_bind {W : Type} : MBind (Go W) := fun A B k m => bind m k.

(* ------------------------------------------------------------------ *)
(** ** Package [net/http] *)

Module http.

Definition MethodGet : string := "GET".
Definition MethodHead : string := "HEAD".
Definition MethodPost : string := "POST".
Definition MethodDelete : string := "DELETE".

Definition StatusOK : Z := 200.
Definition StatusCreated : Z := 201.
Definition StatusBadRequest : Z := 400.
Definition StatusNotFound : Z := 404.

(** The parts of a request that the client sets.  [ReqBody] is [None]
    for a [nil] body. *)
Record Request : Type := mkRequest {
  Method : string;
  URL : string;
  Header : gmap string (list string);
  ReqBody : option string
}.

Record Response : Type := mkResponse {
  StatusCode : Z;
  Body : string
}.

(** [req.Header.Set(key, value)].  The keys the client uses are in
    canonical form already. *)
Definition Header_Set (req : Request) (key value : string) : Request :=
  {| Method := Method req; URL := URL req;
     Header := <[key := [value]]> (Header req); ReqBody := ReqBody req |}.

(** [req.SetBasicAuth(username, password)]. *)
Definition SetBasicAuth (req : Request) (username password : string) : Request :=
  Header_Set req "Authorization"
    ("Basic " +:+ base64.EncodeToString (bytes_of_string (username +:+ ":" +:+ password))).

(** [http.Client]: [Do] sends a request and gives a response or an
    error, and changes the world. *)
Record Client (W : Type) : Type := mkClient {
  Do : Request -> W -> (Response + error) * W
}.
Arguments Do {W} _ _ _.
Arguments mkClient {W} _.

End http.

(** [c.httpClient.Do(req)] as a Go call. *)
Definition Do {W : Type} (c : http.Client W) (req : http.Request)
  : Go W (http.Response + error) :=
  fun w => let '(r, w') := http.Do c req w in (Returned r, w').

(* ------------------------------------------------------------------ *)
(** ** The API client (client.go) *)

Definition defaultBaseURL : string := "https://circleci.com/api/v1.1".
Definition envvarEndpoint : string := "envvar".

(** EnvironmentVariable inside a CircleCI project. *)
Record EnvironmentVariable : Type := mkEnvironmentVariable {
  Name : string;
  Value : string
}.

(** What the client uses of the Go standard library beyond [http.Client]:
    - [url_Parse raw] is the error of [url.Parse], with which
      [http.NewRequest] fails, or [None];
    - [json_Encode e] is what [json.NewEncoder(b).Encode(e)] writes to
      [b], or its error;
    - [json_Decode body] is what [json.NewDecoder(body).Decode(e)] leaves
      in a new [e], or its error. *)
Class GoLibrary : Type := {
  url_Parse : string -> option error;
  json_Encode : EnvironmentVariable -> string + error;
  json_Decode : string -> EnvironmentVariable + error
}.

(** [http.NewRequest]: the methods the client passes are valid ones, so
    the only failure is that of parsing the URL. *)
Definition NewRequest `{GoLibrary} (method url : string) (body : option string)
  : http.Request + error :=
  match url_Parse url with
  | Some err => inr err
  | None => inl {| http.Method := method; http.URL := url;
                   http.Header := ∅; http.ReqBody := body |}
  end.

(** Client for the CircleCI API. *)
Record Client (W : Type) : Type := mkAPIClient {
  baseURL : string;
  token : string;
  vcsType : string;
  organization : string;
  httpClient : http.Client W
}.
Arguments baseURL {W} _.
Arguments token {W} _.
Arguments vcsType {W} _.
Arguments organization {W} _.
Arguments httpClient {W} _.
Arguments mkAPIClient {W} _ _ _ _ _.

Section ClientOperations.
Context {W : Type} `{GoLibrary}.

(** [fmt.Sprintf("%s/project/%s/%s/%s/%s", ...)]. *)
Definition buildApiURL (c : Client W) (projectName endpoint : string) : string :=
  baseURL c +:+ "/project/" +:+ vcsType c +:+ "/" +:+ organization c
  +:+ "/" +:+ projectName +:+ "/" +:+ endpoint.

(** AddEnvironmentVariable creates a new environment variable. *)
Definition AddEnvironmentVariable (c : Client W) (projectName envName envValue : string)
  : Go W (option error) :=
  let endpointURL := buildApiURL c projectName envvarEndpoint in
  let e := {| Name := envName; Value := envValue |} in
  match json_Encode e with
  | inr err => mret (Some err)
  | inl b =>
      match NewRequest http.MethodPost endpointURL (Some b) with
      | inr err => mret (Some err)
      | inl req =>
          let req := http.Header_Set req "Accept" "application/json" in
          let req := http.Header_Set req "Content-Type" "application/json; charset=utf-8" in
          let req := http.SetBasicAuth req (token c) "" in
          r ← Do (httpClient c) req;
          match r with
          | inr err => mret (Some err)
          | inl resp =>
              if negb (http.StatusCode resp =? http.StatusCreated) then
                mret (Some (Errorf ("client: create wrong status code "
                                    +:+ formatInt (http.StatusCode resp))))
              else mret None
          end
      end
  end.

Definition EnvironmentVariableExists (c : Client W) (projectName envName : string)
  : Go W (bool * option error) :=
  let endpointURL := buildApiURL c projectName envvarEndpoint +:+ "/" +:+ envName in
  match NewRequest http.MethodHead endpointURL None with
  | inr err => mret (false, Some err)
  | inl req =>
      let req := http.SetBasicAuth req (token c) "" in
      r ← Do (httpClient c) req;
      match r with
      | inr err => mret (false, Some err)
      | inl resp =>
          if negb (http.StatusCode resp =? http.StatusOK) then
            if http.StatusCode resp =? http.StatusNotFound then mret (false, None)
            else
              mret (false,
                    Some (Errorf ("circleci: wrong status code "
                                  +:+ formatInt (http.StatusCode resp)
                                  +:+ " getting environment variable")))
          else mret (true, None)
      end
  end.

(** GetEnvironmentVariable returns the value of an environment variable
    of a project given its name.  The result is [None] for a [nil]
    pointer. *)
Definition GetEnvironmentVariable (c : Client W) (projectName envName : string)
  : Go W (option EnvironmentVariable * option error) :=
  let endpointURL := buildApiURL c projectName envvarEndpoint +:+ "/" +:+ envName in
  match NewRequest http.MethodGet endpointURL None with
  | inr err => mret (None, Some err)
  | inl req =>
      let req := http.Header_Set req "Accept" "application/json" in
      let req := http.SetBasicAuth req (token c) "" in
      r ← Do (httpClient c) req;
      match r with
      | inr err => mret (None, Some err)
      | inl resp =>
          if negb (http.StatusCode resp =? http.StatusOK) then
            mret (None,
                  Some (Errorf ("circleci: wrong status code "
                                +:+ formatInt (http.StatusCode resp)
                                +:+ " getting environment variable")))
          else
            match json_Decode (http.Body resp) with
            | inr err => mret (None, Some err)
            | inl e => mret (Some e, None)
            end
      end
  end.

(** DeleteEnvironmentVariable deletes an environment variable from a
    project given its name. *)
Definition DeleteEnvironmentVariable (c : Client W) (projectName envName : string)
  : Go W (option error) :=
  let endpointURL := buildApiURL c projectName envvarEndpoint +:+ "/" +:+ envName in
  match NewRequest http.MethodDelete endpointURL None with
  | inr err => mret (Some err)
  | inl req =>
      let req := http.Header_Set req "Accept" "application/json" in
      let req := http.SetBasicAuth req (token c) "" in
      r ← Do (httpClient c) req;
      match r with
      | inr err => mret (Some err)
      | inl resp =>
          if negb (http.StatusCode resp =? http.StatusOK) then
            mret (Some (Errorf ("circleci: wrong status code "
                                +:+ formatInt (http.StatusCode resp)
                                +:+ " deleting environment variable")))
          else mret None
      end
  end.

End ClientOperations.

(** NewClient creates a new CircleCI API client; [DefaultClient] stands
    for [http.DefaultClient].  An option is a function on the client
    that may fail; its error is dropped. *)
Definition ClientOpt (W : Type) : Type := Client W -> Client W * option error.

(** WithBaseURL sets the base URL of the client. *)
Definition WithBaseURL {W : Type} (url : string) : ClientOpt W :=
  fun c =>
    ({| baseURL := url; token := token c; vcsType := vcsType c;
        organization := organization c; httpClient := httpClient c |}, None).

Definition NewClient {W : Type} (DefaultClient : http.Client W)
    (token vcsType organization : string) (opts : list (ClientOpt W))
  : Client W * option error :=
  let client :=
    {| baseURL := defaultBaseURL; token := token; vcsType := vcsType;
       organization := organization; httpClient := DefaultClient |} in
  (fold_left (fun client opt => fst (opt client)) opts client, None).

(* ------------------------------------------------------------------ *)
(** ** Package [helper/schema] of the host engine *)

Module schema.

(** A value of type [interface{}] as the host engine hands it to the
    functions of a field. *)
Inductive any : Type :=
| StringValue (s : string)
| IntValue (n : Z)
| BoolValue (b : bool).

(** The description of one field of a resource. *)
Record Schema : Type := mkSchema {
  Description : string;
  Required : bool;
  ForceNew : bool;
  Sensitive : bool;
  ValidateFunc : option (any -> string -> list string * list error);
  StateFunc : option (any -> outcome string)
}.

(** A record of the resource: the values of its fields, all of type
    [TypeString] here, and its identity. *)
Record ResourceData : Type := mkResourceData {
  schema : gmap string Schema;
  fields : gmap string string;
  Id : string
}.

(** [d.Get(key).(string)]: the zero value when the field is not set. *)
Definition Get (d : ResourceData) (key : string) : string :=
  default EmptyString (fields d !! key).

(** [d.Set(key, value)] fails on a key that the schema does not have
    ([Set] is a reserved word, hence the name). *)
Definition Set_ (d : ResourceData) (key value : string) : ResourceData * option error :=
  match schema d !! key with
  | Some _ =>
      ({| schema := schema d; fields := <[key := value]> (fields d); Id := Id d |}, None)
  | None => (d, Some (Errorf ("Invalid address to set: " +:+ key)))
  end.

(** [d.SetId(v)]. *)
Definition SetId (d : ResourceData) (v : string) : ResourceData :=
  {| schema := schema d; fields := fields d; Id := v |}.

(** [schema.ImportStatePassthrough]. *)
Definition ImportStatePassthrough {M : Type} (d : ResourceData) (m : M)
  : list ResourceData * option error := ([d], None).

(** What the host engine keeps of a configured value: the result of the
    field's [StateFunc] when it has one, the value itself otherwise. *)
Definition stateValue (s : Schema) (value : string) : outcome string :=
  match StateFunc s with
  | Some f => f (StringValue value)
  | None => Returned value
  end.

End schema.

(* ------------------------------------------------------------------ *)
(** ** The resource adapter (resource_circleci_environment_variable.go) *)

Definition validateName (i : schema.any) (keyName : string)
  : list string * list error :=
  match i with
  | schema.StringValue v =>
      if negb (ValidateEnvironmentVariableName v) then
        ([], [Errorf ("environment variable name " +:+ v
                      +:+ " is not valid. See https://circleci.com/docs/2.0/env-vars/#injecting-environment-variables-with-the-api")])
      else ([], [])
  | _ => ([], [Errorf ("expected type of " +:+ keyName +:+ " to be string")])
  end.

(** The [StateFunc] of the field [value]: to avoid storing the value of
    the environment variable in the state but still be able to know
    when the value changes, a hash of the value is stored.  The type
    assertion [value.(string)] panics on anything but a string. *)
Definition valueStateFunc (value : schema.any) : outcome string :=
  match value with
  | schema.StringValue s => Returned (hashString s)
  | _ => Panicked "interface conversion: interface {} is not string"
  end.

(** The [Schema] map of [resourceCircleCIEnvironmentVariable]. *)
Definition resourceSchema : gmap string schema.Schema :=
  <["project" :=
      {| schema.Description := "The name of the CircleCI project to create the variable in";
         schema.Required := true; schema.ForceNew := true; schema.Sensitive := false;
         schema.ValidateFunc := None; schema.StateFunc := None |}]>
  (<["name" :=
      {| schema.Description := "The name of the environment variable";
         schema.Required := true; schema.ForceNew := true; schema.Sensitive := false;
         schema.ValidateFunc := Some validateName; schema.StateFunc := None |}]>
  (<["value" :=
      {| schema.Description := "The value of the environment variable";
         schema.Required := true; schema.ForceNew := true; schema.Sensitive := true;
         schema.ValidateFunc := None; schema.StateFunc := Some valueStateFunc |}]> ∅)).

Section Adapter.
Context {W : Type} `{GoLibrary}.

Definition resourceCircleCIEnvironmentVariableRead (d : schema.ResourceData) (m : Client W)
  : Go W (schema.ResourceData * option error) :=
  let client := m in
  let projectName := schema.Get d "project" in
  let envName := schema.Get d "name" in
  '(envVar, err) ← GetEnvironmentVariable client projectName envName;
  match err with
  | Some err => mret (d, Some err)
  | None =>
      match envVar with
      | None => panic "runtime error: invalid memory address or nil pointer dereference"
      | Some envVar =>
          let '(d, err) := schema.Set_ d "name" (Name envVar) in
          match err with
          | Some err => mret (d, Some err)
          | None => mret (d, None)
          end
      end
  end.

Definition resourceCircleCIEnvironmentVariableCreate (d : schema.ResourceData) (m : Client W)
  : Go W (schema.ResourceData * option error) :=
  let client := m in
  let projectName := schema.Get d "project" in
  let envName := schema.Get d "name" in
  let envValue := schema.Get d "value" in
  '(exists_, err) ← EnvironmentVariableExists client projectName envName;
  match err with
  | Some err => mret (d, Some err)
  | None =>
      if (exists_ : bool) then
        mret (d, Some (Errorf ("environment variable '" +:+ envName
                               +:+ "' already exists for project '" +:+ projectName +:+ "'")))
      else
        err ← AddEnvironmentVariable client projectName envName envValue;
        match err with
        | Some err => mret (d, Some err)
        | None =>
            let d := schema.SetId d envName in
            resourceCircleCIEnvironmentVariableRead d m
        end
  end.

Definition resourceCircleCIEnvironmentVariableDelete (d : schema.ResourceData) (m : Client W)
  : Go W (schema.ResourceData * option error) :=
  let client := m in
  let projectName := schema.Get d "project" in
  let envName := schema.Get d "name" in
  err ← DeleteEnvironmentVariable client projectName envName;
  match err with
  | Some err => mret (d, Some err)
  | None =>
      let d := schema.SetId d EmptyString in
      mret (d, None)
  end.

(** The call of [panic] comes before the [return] statement, which is
    never reached. *)
Definition resourceCircleCIEnvironmentVariableExists (d : schema.ResourceData) (m : Client W)
  : Go W (bool * option error) :=
  let client := m in
  let projectName := schema.Get d "project" in
  let envName := schema.Get d "name" in
  _ ← @panic W unit ("project: " +:+ projectName +:+ " name: " +:+ envName
                     +:+ String "010" EmptyString);
  EnvironmentVariableExists client projectName envName.

End Adapter.

(* ------------------------------------------------------------------ *)
(** ** Package [encoding/json], for the type [EnvironmentVariable] *)

Module json.

(** The double quote. *)
Definition quote : ascii := "034"%char.

(** [dq s] is [s] with every apostrophe turned into a double quote; it
    keeps JSON texts readable. *)
Fixpoint dq (s : string) : string :=
  match s with
  | EmptyString => EmptyString
  | String a t => String (if Ascii.eqb a "'" then quote else a) (dq t)
  end.

#[warnings="-register-all"]
Inductive Json : Type :=
| Null
| Bool (b : bool)
| Number (lit : string)
| Str (s : string)
| Array (vs : list Json)
| Object (members : list (string * Json)).

Definition isSpace (a : ascii) : bool :=
  Ascii.eqb a " " || Ascii.eqb a "009" || Ascii.eqb a "010" || Ascii.eqb a "013".

Fixpoint skipSpace (s : string) : string :=
  match s with
  | EmptyString => s
  | String a t => if isSpace a then skipSpace t else s
  end.

(** The longest prefix whose bytes satisfy [p], and the rest. *)
Fixpoint span (p : ascii -> bool) (s : string) : string * string :=
  match s with
  | EmptyString => (EmptyString, EmptyString)
  | String a t =>
      if p a then let '(u, v) := span p t in (String a u, v)
      else (EmptyString, s)
  end.

Definition hexval (a : ascii) : option N :=
  let n := N_of_ascii a in
  if regexp.digit a then Some (n - 48)%N
  else if regexp.between 97 102 a then Some (n - 87)%N
  else if regexp.between 65 70 a then Some (n - 55)%N
  else None.

Definition hex4 (s : string) : option (N * string) :=
  match s with
  | String a (String b (String c (String d t))) =>
      match hexval a, hexval b, hexval c, hexval d with
      | Some x, Some y, Some z, Some w => Some ((((x * 16 + y) * 16 + z) * 16 + w)%N, t)
      | _, _, _, _ => None
      end
  | _ => None
  end.

(** The UTF-8 encoding of a code point. *)
Definition utf8 (cp : N) : string :=
  let b (n : N) := ascii_of_N n in
  let low (n : N) := (128 + n mod 64)%N in
  if (cp <? 128)%N then String (b cp) EmptyString
  else if (cp <? 2048)%N then
    String (b (192 + cp / 64)%N) (String (b (low cp)) EmptyString)
  else if (cp <? 65536)%N then
    String (b (224 + cp / 4096)%N)
      (String (b (low (cp / 64)%N)) (String (b (low cp)) EmptyString))
  else
    String (b (240 + cp / 262144)%N)
      (String (b (low (cp / 4096)%N))
         (String (b (low (cp / 64)%N)) (String (b (low cp)) EmptyString))).

(** The character of a one-letter escape. *)
Definition unescape (e : ascii) : option ascii :=
  if Ascii.eqb e quote then Some quote
  else if Ascii.eqb e "\" then Some "\"%char
  else if Ascii.eqb e "/" then Some "/"%char
  else if Ascii.eqb e "b" then Some "008"%char
  else if Ascii.eqb e "f" then Some "012"%char
  else if Ascii.eqb e "n" then Some "010"%char
  else if Ascii.eqb e "r" then Some "013"%char
  else if Ascii.eqb e "t" then Some "009"%char
  else None.

(** A [\u] escape whose four digits gave [cp], followed by [t]: a high
    surrogate takes the low surrogate that follows it; a surrogate on
    its own becomes U+FFFD. *)
Definition surrogate (cp : N) (t : string) : N * string :=
  if (55296 <=? cp)%N && (cp <? 56320)%N then
    match t with
    | String "\" (String "u" t') =>
        match hex4 t' with
        | Some (lo, t'') =>
            if (56320 <=? lo)%N && (lo <? 57344)%N
            then ((65536 + (cp - 55296) * 1024 + (lo - 56320))%N, t'')
            else (65533%N, t)
        | None => (65533%N, t)
        end
    | _ => (65533%N, t)
    end
  else if (56320 <=? cp)%N && (cp <? 57344)%N then (65533%N, t)
  else (cp, t).

(** A string literal after its opening quote: the text and what follows
    the closing quote.  Bytes above 127 are copied as they are. *)
Fixpoint strLit (fuel : nat) (s : string) : option (string * string) :=
  match fuel, s with
  | S fuel', String a t =>
      if Ascii.eqb a quote then Some (EmptyString, t)
      else if Ascii.eqb a "\" then
        match t with
        | String e t' =>
            if Ascii.eqb e "u" then
              match hex4 t' with
              | Some (cp, t'') =>
                  let '(cp, rest) := surrogate cp t'' in
                  '(u, v) ← strLit fuel' rest; Some (utf8 cp +:+ u, v)
              | None => None
              end
            else
              c ← unescape e; '(u, v) ← strLit fuel' t'; Some (String c u, v)
        | EmptyString => None
        end
      else if (N_of_ascii a <? 32)%N then None
      else '(u, v) ← strLit fuel' t; Some (String a u, v)
  | _, _ => None
  end.

(** A number literal: an optional minus sign; a zero, or a digit other
    than zero and more digits; an optional fraction of a point and
    digits; an optional exponent of [e] or [E], a sign and digits. *)
Definition number (s : string) : option (string * string) :=
  let '(sign, s1) :=
    match s with
    | String "-" t => ("-", t)
    | _ => (EmptyString, s)
    end in
  let '(int, s2) := span regexp.digit s1 in
  match int with
  | EmptyString => None
  | String d more =>
      if Ascii.eqb d "0" && negb (String.eqb more EmptyString) then None
      else
        frac ←
          match s2 with
          | String "." t =>
              let '(ds, r) := span regexp.digit t in
              if String.eqb ds EmptyString then None else Some ("." +:+ ds, r)
          | _ => Some (EmptyString, s2)
          end;
        let '(fr, s3) := frac in
        exp ←
          match s3 with
          | String e t =>
              if Ascii.eqb e "e" || Ascii.eqb e "E" then
                let '(sg, t') :=
                  match t with
                  | String c r =>
                      if Ascii.eqb c "+" || Ascii.eqb c "-"
                      then (String c EmptyString, r) else (EmptyString, t)
                  | EmptyString => (EmptyString, t)
                  end in
                let '(ds, r) := span regexp.digit t' in
                if String.eqb ds EmptyString then None
                else Some (String e sg +:+ ds, r)
              else Some (EmptyString, s3)
          | EmptyString => Some (EmptyString, s3)
          end;
        let '(ex, s4) := exp in
        Some (sign +:+ int +:+ fr +:+ ex, s4)
  end.

(** [s] starts with the literal [lit]: the rest. *)
Fixpoint literal (lit s : string) : option string :=
  match lit, s with
  | EmptyString, _ => Some s
  | String a l, String b t => if Ascii.eqb a b then literal l t else None
  | _, _ => None
  end.

(** The next JSON value of a text and what follows it; [None] on a
    syntax error. *)
Fixpoint value (fuel : nat) (s : string) {struct fuel} : option (Json * string) :=
  match fuel with
  | O => None
  | S fuel' =>
      match skipSpace s with
      | EmptyString => None
      | String c t as s' =>
          if Ascii.eqb c "{" then
            match skipSpace t with
            | String "}" t' => Some (Object [], t')
            | _ => '(ms, r) ← members fuel' t; Some (Object ms, r)
            end
          else if Ascii.eqb c "[" then
            match skipSpace t with
            | String "]" t' => Some (Array [], t')
            | _ => '(vs, r) ← elements fuel' t; Some (Array vs, r)
            end
          else if Ascii.eqb c quote then
            '(u, r) ← strLit (String.length t) t; Some (Str u, r)
          else if Ascii.eqb c "t" then r ← literal "true" s'; Some (Bool true, r)
          else if Ascii.eqb c "f" then r ← literal "false" s'; Some (Bool false, r)
          else if Ascii.eqb c "n" then r ← literal "null" s'; Some (Null, r)
          else '(lit, r) ← number s'; Some (Number lit, r)
      end
  end
with members (fuel : nat) (s : string) {struct fuel}
  : option (list (string * Json) * string) :=
  match fuel with
  | O => None
  | S fuel' =>
      match skipSpace s with
      | String c t =>
          if Ascii.eqb c quote then
            '(key, r1) ← strLit (String.length t) t;
            match skipSpace r1 with
            | String ":" r2 =>
                '(v, r3) ← value fuel' r2;
                match skipSpace r3 with
                | String "," r4 => '(ms, r5) ← members fuel' r4; Some ((key, v) :: ms, r5)
                | String "}" r4 => Some ([(key, v)], r4)
                | _ => None
                end
            | _ => None
            end
          else None
      | EmptyString => None
      end
  end
with elements (fuel : nat) (s : string) {struct fuel} : option (list Json * string) :=
  match fuel with
  | O => None
  | S fuel' =>
      '(v, r1) ← value fuel' s;
      match skipSpace r1 with
      | String "," r2 => '(vs, r3) ← elements fuel' r2; Some (v :: vs, r3)
      | String "]" r2 => Some ([v], r2)
      | _ => None
      end
  end.

(** The name of the JSON type of a value in an error text. *)
Definition typeName (v : Json) : string :=
  match v with
  | Null => "null" | Bool _ => "bool" | Number _ => "number"
  | Str _ => "string" | Array _ => "array" | Object _ => "object"
  end.

Definition toLower (a : ascii) : ascii :=
  if regexp.upper a then ascii_of_N (N_of_ascii a + 32) else a.

Fixpoint fold (s : string) : string :=
  match s with
  | EmptyString => EmptyString
  | String a t => String (toLower a) (fold t)
  end.

(** The field of [EnvironmentVariable] that a key names ([true] for
    [Name], [false] for [Value]): the tag itself, or else the tag
    without regard to the case of letters. *)
Definition field (key : string) : option bool :=
  if String.eqb key "name" then Some true
  else if String.eqb key "value" then Some false
  else if String.eqb (fold key) "name" then Some true
  else if String.eqb (fold key) "value" then Some false
  else None.

(** The members of an object are stored in turn; a [null] leaves the
    field as it is, an unknown key is skipped, and the first value of a
    wrong type makes the error that is returned in the end. *)
Fixpoint object (ms : list (string * Json)) (e : EnvironmentVariable)
    (saved : option error) : EnvironmentVariable * option error :=
  match ms with
  | [] => (e, saved)
  | (key, v) :: rest =>
      match field key, v with
      | None, _ | Some _, Null => object rest e saved
      | Some true, Str s => object rest {| Name := s; Value := Value e |} saved
      | Some false, Str s => object rest {| Name := Name e; Value := s |} saved
      | Some f, _ =>
          let err :=
            Errorf ("json: cannot unmarshal " +:+ typeName v
                    +:+ " into Go struct field EnvironmentVariable."
                    +:+ (if f then "name" else "value") +:+ " of type string") in
          object rest e (Some (default err saved))
      end
  end.

(** [Decode] into a new [EnvironmentVariable].  The texts of syntax
    errors are not modelled. *)
Definition Decode (body : string) : EnvironmentVariable + error :=
  match skipSpace body with
  | EmptyString => inr (Errorf "EOF")
  | _ =>
      match value (2 * String.length body + 2) body with
      | None => inr (Errorf "json: syntax error")
      | Some (Object ms, _) =>
          match object ms {| Name := EmptyString; Value := EmptyString |} None with
          | (_, Some err) => inr err
          | (e, None) => inl e
          end
      | Some (Null, _) => inl {| Name := EmptyString; Value := EmptyString |}
      | Some (v, _) =>
          inr (Errorf ("json: cannot unmarshal " +:+ typeName v
                       +:+ " into Go value of type circleci.EnvironmentVariable"))
      end
  end.

Definition hexdigit (n : N) : ascii :=
  default "0"%char (String.get (N.to_nat n) "0123456789abcdef").

(** The escaped form of a byte in a string literal, with the escaping
    of [<], [>] and [&] that the encoder has by default.  Bytes above
    127 are copied, as the encoder does with well-formed UTF-8. *)
Definition escape (a : ascii) : string :=
  let n := N_of_ascii a in
  if Ascii.eqb a quote || Ascii.eqb a "\" then String "\" (String a EmptyString)
  else if Ascii.eqb a "010" then "\n"
  else if Ascii.eqb a "013" then "\r"
  else if Ascii.eqb a "009" then "\t"
  else if (n <? 32)%N || Ascii.eqb a "<" || Ascii.eqb a ">" || Ascii.eqb a "&" then
    "\u00" +:+ String (hexdigit (n / 16)) (String (hexdigit (n mod 16)) EmptyString)
  else String a EmptyString.

Fixpoint escaped (s : string) : string :=
  match s with
  | EmptyString => EmptyString
  | String a t => escape a +:+ escaped t
  end.

Definition quoted (s : string) : string :=
  String quote (escaped s) +:+ String quote EmptyString.

(** [Encode] of an [EnvironmentVariable]: the object and a newline. *)
Definition Encode (e : EnvironmentVariable) : string + error :=
  inl ("{" +:+ quoted "name" +:+ ":" +:+ quoted (Name e) +:+ ","
       +:+ quoted "value" +:+ ":" +:+ quoted (Value e) +:+ "}"
       +:+ String "010" EmptyString).

End json.

(* ------------------------------------------------------------------ *)
(** ** Package [net/url] *)

Module url.

(** A byte that [Parse] rejects anywhere in a URL. *)
Definition control (a : ascii) : bool :=
  (N_of_ascii a <? 32)%N || (N_of_ascii a =? 127)%N.

(** The error of [Parse].  Of its checks, the one for control
    characters is modelled. *)
Definition ParseError (raw : string) : option error :=
  if allb (fun a => negb (control a)) raw then None
  else Some (Errorf ("parse " +:+ raw +:+ ": net/url: invalid control character in URL")).

End url.

(** The library as the client runs on it. *)
Definition goStd : GoLibrary :=
  {| url_Parse := url.ParseError;
     json_Encode := json.Encode;
     json_Decode := json.Decode |}.

(* ------------------------------------------------------------------ *)
(** ** Transports for tests (client_test.go) *)

(** [testingRoundTripper]: a transport that is a function of the request. *)
Definition testingRoundTripper (t : http.Request -> http.Response + error)
  : http.Client unit :=
  {| http.Do := fun r w => (t r, w) |}.

(** A transport that also keeps the requests it was given, oldest first. *)
Definition recording {W : Type} (t : http.Client W) : http.Client (W * list http.Request) :=
  {| http.Do := fun r wl =>
       let '(res, w') := http.Do t r (fst wl) in (res, (w', snd wl ++ [r])) |}.

(** A client on the recording transport. *)
Definition traced {W : Type} (c : Client W) : Client (W * list http.Request) :=
  {| baseURL := baseURL c; token := token c; vcsType := vcsType c;
     organization := organization c; httpClient := recording (httpClient c) |}.

(** The client of the tests, on a transport [t]. *)
Definition testClient (t : http.Request -> http.Response + error) : Client unit :=
  {| baseURL := defaultBaseURL; token := "token"; vcsType := "github";
     organization := "foo"; httpClient := testingRoundTripper t |}.

(** A record of the resource as the host engine hands it to [Create]:
    the configured fields and no identity. *)
Definition newRecord (project name value : string) : schema.ResourceData :=
  {| schema.schema := resourceSchema;
     schema.fields := <["project" := project]> (<["name" := name]> (<["value" := value]> ∅));
     schema.Id := EmptyString |}.

(* ------------------------------------------------------------------ *)
(** ** The requests of the wire protocol *)

Section Requests.
Context {W : Type}.

(** The URL of a variable: [{baseURL}/project/{vcsType}/{organization}/{projectName}/envvar/{name}]. *)
Definition variableURL (c : Client W) (projectName envName : string) : string :=
  buildApiURL c projectName envvarEndpoint +:+ "/" +:+ envName.

Definition basicAuth (c : Client W) : string :=
  "Basic " +:+ base64.EncodeToString (bytes_of_string (token c +:+ ":")).

(** [HEAD] on the variable, with the token as the user name. *)
Definition existsRequest (c : Client W) (projectName envName : string) : http.Request :=
  {| http.Method := "HEAD"; http.URL := variableURL c projectName envName;
     http.Header := <["Authorization" := [basicAuth c]]> ∅;
     http.ReqBody := None |}.

(** [POST] of [body] on the collection of variables. *)
Definition createRequest (c : Client W) (projectName body : string) : http.Request :=
  {| http.Method := "POST"; http.URL := buildApiURL c projectName envvarEndpoint;
     http.Header :=
       <["Authorization" := [basicAuth c]]>
         (<["Content-Type" := ["application/json; charset=utf-8"]]>
            (<["Accept" := ["application/json"]]> ∅));
     http.ReqBody := Some body |}.

(** [GET] on the variable. *)
Definition readRequest (c : Client W) (projectName envName : string) : http.Request :=
  {| http.Method := "GET"; http.URL := variableURL c projectName envName;
     http.Header := <["Authorization" := [basicAuth c]]> (<["Accept" := ["application/json"]]> ∅);
     http.ReqBody := None |}.

(** [DELETE] on the variable. *)
Definition deleteRequest (c : Client W) (projectName envName : string) : http.Request :=
  {| http.Method := "DELETE"; http.URL := variableURL c projectName envName;
     http.Header := <["Authorization" := [basicAuth c]]> (<["Accept" := ["application/json"]]> ∅);
     http.ReqBody := None |}.

End Requests.

(** The text of the error for an unexpected status. *)
Definition wrongStatus (code : Z) (doing : string) : string :=
  "circleci: wrong status code " +:+ formatInt code +:+ " " +:+ doing +:+ " environment variable".

(* ------------------------------------------------------------------ *)
(** ** Definitions for the statements *)

(** Answers of the tests' transport. *)
Definition answer (code : Z) (body : string) : http.Request -> http.Response + error :=
  fun _ => inl {| http.StatusCode := code; http.Body := body |}.

(** An answer with a status code and an empty body. *)
Definition status (code : Z) : http.Response + error :=
  inl {| http.StatusCode := code; http.Body := EmptyString |}.

(** A transport that answers by the method of the request. *)
Definition byMethod (head post get : http.Response + error)
  : http.Request -> http.Response + error :=
  fun r =>
    if String.eqb (http.Method r) "HEAD" then head
    else if String.eqb (http.Method r) "POST" then post
    else get.

(** The client and the record of the examples: the variable "key" with
    the value "value" in the project "bar". *)
Definition barKey : schema.ResourceData := newRecord "bar" "key" "value".

(** The first byte of a name satisfies [p]. *)
Definition starts_with (p : ascii -> bool) (name : string) : bool :=
  match name with
  | EmptyString => false
  | String a _ => p a
  end.

(** The result that [EnvironmentVariableExists] makes of an answer. *)
Definition existsResult (r : http.Response + error) : bool * option error :=
  match r with
  | inr err => (false, Some err)
  | inl resp =>
      if http.StatusCode resp =? 200 then (true, None)
      else if http.StatusCode resp =? 404 then (false, None)
      else (false, Some (Errorf (wrongStatus (http.StatusCode resp) "getting")))
  end.

(** The result that [AddEnvironmentVariable] makes of an answer. *)
Definition addResult (r : http.Response + error) : option error :=
  match r with
  | inr err => Some err
  | inl resp =>
      if http.StatusCode resp =? 201 then None
      else Some (Errorf ("client: create wrong status code "
                         +:+ formatInt (http.StatusCode resp)))
  end.

(** The result that [DeleteEnvironmentVariable] makes of an answer. *)
Definition deleteResult (r : http.Response + error) : option error :=
  match r with
  | inr err => Some err
  | inl resp =>
      if http.StatusCode resp =? 200 then None
      else Some (Errorf (wrongStatus (http.StatusCode resp) "deleting"))
  end.

(** The text of the conflict error of [Create]. *)
Definition alreadyExists (envName projectName : string) : string :=
  "environment variable '" +:+ envName +:+ "' already exists for project '"
  +:+ projectName +:+ "'".

(** [Create] in the words of the specification: the existence check; a
    conflict error when it reports the variable; otherwise the client's
    create, the identity, and [Read]. *)
Definition createAsSpecified `{GoLibrary} {W : Type} (d : schema.ResourceData) (m : Client W)
  : Go W (schema.ResourceData * option error) :=
  let projectName := schema.Get d "project" in
  let envName := schema.Get d "name" in
  let envValue := schema.Get d "value" in
  '(exists_, _) ← EnvironmentVariableExists m projectName envName;
  if (exists_ : bool) then
    mret (d, Some (Errorf ("environment variable '" +:+ envName
                           +:+ "' already exists for project '" +:+ projectName +:+ "'")))
  else
    _ ← AddEnvironmentVariable m projectName envName envValue;
    resourceCircleCIEnvironmentVariableRead (schema.SetId d envName) m.

(** A character of the base64 alphabet of [StdEncoding]. *)
Definition base64digit (a : ascii) : bool :=
  regexp.upper a || regexp.lower a || regexp.digit a
  || Ascii.eqb a "+" || Ascii.eqb a "/".

(** The requests that an operation adds to the record of the transport:
    [req] when the request could be built, none otherwise. *)
Definition sentIf (built : bool) (req : http.Request) : list http.Request :=
  if built then [req] else [].

(** The URL parses. *)
Definition parses `{GoLibrary} (raw : string) : bool :=
  match url_Parse raw with
  | None => true
  | Some _ => false
  end.


(* ================================================================== *)
(** * Part II: properties *)
(* ================================================================== *)

(** ** Strings *)

Lemma append_nil (t : string) : EmptyString +:+ t = t.
Proof. reflexivity. Qed.

Lemma append_cons (a : ascii) (s t : string) : String a s +:+ t = String a (s +:+ t).
Proof. reflexivity. Qed.

Lemma Contains_prefix (s sub : string) : String.prefix sub s = true -> Contains s sub = true.
Proof. intros Hp. destruct s; cbn [Contains]; rewrite Hp; reflexivity. Qed.

Lemma prefix_app (sub post : string) : String.prefix sub (sub +:+ post) = true.
Proof.
  induction sub as [|a sub IH].
  - rewrite append_nil. destruct post; reflexivity.
  - rewrite append_cons. cbn [String.prefix].
    destruct (ascii_dec a a); [exact IH|congruence].
Qed.

Lemma Contains_app (pre sub post : string) : Contains (pre +:+ sub +:+ post) sub = true.
Proof.
  induction pre as [|a pre IH].
  - rewrite append_nil. apply Contains_prefix, prefix_app.
  - rewrite append_cons. cbn [Contains]. rewrite IH. apply orb_true_r.
Qed.

Lemma Contains_skip (pre s sub : string) :
  Contains s sub = true -> Contains (pre +:+ s) sub = true.
Proof.
  intros Hs. induction pre as [|a pre IH].
  - rewrite append_nil. exact Hs.
  - rewrite append_cons. cbn [Contains]. rewrite IH. apply orb_true_r.
Qed.

Lemma prefix_refl (s : string) : String.prefix s s = true.
Proof. induction s as [|a s IH]; cbn; [reflexivity|]. destruct (ascii_dec a a); [exact IH|congruence]. Qed.

Lemma Contains_suffix (pre sub : string) : Contains (pre +:+ sub) sub = true.
Proof.
  induction pre as [|a pre IH].
  - rewrite append_nil. apply Contains_prefix, prefix_refl.
  - rewrite append_cons. cbn [Contains]. rewrite IH. apply orb_true_r.
Qed.

(* ------------------------------------------------------------------ *)
(** ** Name validation *)

Section NameValidation.
Import regexp.

(** The continuation that accepts everything, as [MatchString] uses it. *)
Let accept : cont := fun _ _ => true.

Lemma iterate_unfold (step : cont -> cont) (k : cont) (fuel : nat) (i : nat) (s : string) :
  iterate step k (S fuel) i s
  = k i s || step (fun j t => (String.length t <? String.length s)%nat
                              && iterate step k fuel j t) i s.
Proof. reflexivity. Qed.

Lemma alpha_word (a : ascii) : alpha a = true -> word a = true.
Proof. unfold word. intros ->. rewrite orb_true_r. reflexivity. Qed.

Lemma length_lt_S (t : string) : (String.length t <? S (String.length t))%nat = true.
Proof. apply Nat.ltb_lt. lia. Qed.

(** A starred class before the end of the text takes all that is left. *)
Lemma star_class_end (cls : ascii -> bool) (fuel : nat) :
  forall (i : nat) (s : string),
    (String.length s < fuel)%nat ->
    iterate (matchHere (CharClass cls)) (matchHere EndText accept) fuel i s = allb cls s.
Proof.
  induction fuel as [|fuel IH]; intros i s Hlen; [lia|].
  rewrite iterate_unfold. destruct s as [|a t]; [reflexivity|].
  cbn [matchHere allb orb String.length]. rewrite length_lt_S.
  cbn [String.length] in Hlen. rewrite IH by lia. reflexivity.
Qed.

Lemma word_star_end (i : nat) (s : string) :
  matchHere (Concat (Star (CharClass word)) EndText) accept i s = allb word s.
Proof. cbn [matchHere]. apply star_class_end. lia. Qed.

(** More letters in front of [[[:word:]]*$] change nothing: a letter is
    a word character. *)
Lemma alpha_star_word (fuel : nat) :
  forall (i : nat) (s : string),
    (String.length s < fuel)%nat ->
    iterate (matchHere (CharClass alpha))
      (matchHere (Concat (Star (CharClass word)) EndText) accept) fuel i s
    = allb word s.
Proof.
  induction fuel as [|fuel IH]; intros i s Hlen; [lia|].
  rewrite iterate_unfold, word_star_end. destruct s as [|a t]; [reflexivity|].
  cbn [matchHere allb String.length]. rewrite length_lt_S.
  cbn [String.length] in Hlen. rewrite IH by lia. cbn [andb].
  destruct (alpha a) eqn:Ha; [|apply orb_false_r].
  rewrite (alpha_word a Ha). cbn [andb]. apply orb_diag.
Qed.

Lemma envVarNameRegexp_at_start (s : string) :
  matchHere envVarNameRegexp accept 0 s = letter_then_word s.
Proof.
  unfold envVarNameRegexp. cbn [matchHere Nat.eqb andb].
  destruct s as [|a t]; [reflexivity|].
  cbn [letter_then_word]. f_equal. apply alpha_star_word. cbn [String.length]. lia.
Qed.

Lemma envVarNameRegexp_later (i : nat) (s : string) :
  searchFrom envVarNameRegexp (S i) s = false.
Proof.
  revert i. induction s as [|a t IH]; intros i; cbn [searchFrom]; [reflexivity|].
  rewrite IH. reflexivity.
Qed.

(** The compiled pattern accepts exactly a letter followed by letters,
    digits and underscores. *)
Lemma ValidateEnvironmentVariableName_shape (name : string) :
  ValidateEnvironmentVariableName name = letter_then_word name.
Proof.
  unfold ValidateEnvironmentVariableName, MatchString.
  destruct name as [|a t]; [reflexivity|].
  cbn [searchFrom]. rewrite envVarNameRegexp_later, orb_false_r.
  apply envVarNameRegexp_at_start.
Qed.

End NameValidation.

(** C10: every name made of a letter followed by letters, digits and
    underscores (the names that match the pattern) is accepted by
    [ValidateEnvironmentVariableName], and every name that starts with
    a digit or with a symbol is rejected. *)
Theorem ValidateEnvironmentVariableName_correct (name : string) :
  (letter_then_word name = true -> ValidateEnvironmentVariableName name = true)
  /\ (starts_with regexp.digit name = true \/ starts_with symbol name = true ->
      ValidateEnvironmentVariableName name = false).
Proof.
  rewrite ValidateEnvironmentVariableName_shape. split; [tauto|].
  destruct name as [|a t]; [reflexivity|]. cbn [starts_with letter_then_word].
  unfold symbol. intros [Hd | Hs].
  - replace (regexp.alpha a) with false; [reflexivity|].
    revert Hd. unfold regexp.alpha, regexp.upper, regexp.lower, regexp.digit, regexp.between.
    intros Hd. apply andb_true_iff in Hd as [H1 H2].
    apply N.leb_le in H1, H2. symmetry. apply orb_false_iff.
    split; apply andb_false_iff; rewrite !N.leb_gt; lia.
  - apply andb_true_iff in Hs as [Hs _]. apply negb_true_iff in Hs. rewrite Hs. reflexivity.
Qed.

Lemma ValidateEnvironmentVariableName_correct_witness :
  ValidateEnvironmentVariableName "FOO_bar9" = true
  /\ ValidateEnvironmentVariableName "9lives" = false
  /\ ValidateEnvironmentVariableName "-dash" = false.
Proof.
  split; [|split].
  - apply (ValidateEnvironmentVariableName_correct "FOO_bar9"). reflexivity.
  - apply (ValidateEnvironmentVariableName_correct "9lives"). left. reflexivity.
  - apply (ValidateEnvironmentVariableName_correct "-dash"). right. reflexivity.
Defined.

(* ------------------------------------------------------------------ *)
(** ** The stored form of the value *)

Lemma Sum256_length (data : list Z) : length (sha256.Sum256 data) = 32%nat.
Proof.
  unfold sha256.Sum256.
  destruct (sha256.block _ _ _) as [[[[[[[h0 h1] h2] h3] h4] h5] h6] h7].
  reflexivity.
Qed.

Lemma EncodeToString_32 (src : list Z) :
  length src = 32%nat -> String.length (base64.EncodeToString src) = 44%nat.
Proof.
  intros Hlen.
  do 32 (destruct src as [|? src]; [discriminate Hlen|]).
  destruct src; [reflexivity|discriminate Hlen].
Qed.

Lemma hashString_length (str : string) : String.length (hashString str) = 44%nat.
Proof. unfold hashString. apply EncodeToString_32, Sum256_length. Qed.

(** C9: for every plaintext, what the host engine keeps for the field
    [value] is the result of the field's state function, which is
    [hashString] of the plaintext: the base64 encoding of its SHA-256
    digest.  That text has 44 characters whatever the plaintext is, so
    it is not the plaintext unless the plaintext is itself 44
    characters long. *)
Theorem value_state_is_hash (value : string) :
  exists s : schema.Schema,
    resourceSchema !! "value" = Some s
    /\ schema.StateFunc s = Some valueStateFunc
    /\ valueStateFunc (schema.StringValue value) = Returned (hashString value)
    /\ schema.stateValue s value
       = Returned (base64.EncodeToString (sha256.Sum256 (bytes_of_string value)))
    /\ String.length (hashString value) = 44%nat
    /\ (String.length value <> 44%nat ->
        schema.stateValue s value <> Returned value).
Proof.
  eexists. split; [reflexivity|]. split; [reflexivity|]. split; [reflexivity|].
  split; [reflexivity|]. split; [apply hashString_length|].
  intros Hlen Heq. apply Hlen.
  assert (Hh : hashString value = value) by (injection Heq; trivial).
  rewrite <- Hh at 1. apply hashString_length.
Qed.

Lemma value_state_is_hash_witness :
  exists s : schema.Schema,
    resourceSchema !! "value" = Some s
    /\ schema.stateValue s "value" = Returned "zUJATVKtVcz6mspK3IKKpYAK2dOFoGcfvL9yQRgyBhk="
    /\ schema.stateValue s "value" <> Returned "value".
Proof.
  destruct (value_state_is_hash "value") as (s & Hs & _ & _ & Hv & _ & Hne).
  exists s. split; [exact Hs|]. split.
  - rewrite Hv. vm_compute. reflexivity.
  - apply Hne. vm_compute. discriminate.
Defined.

(* ------------------------------------------------------------------ *)
(** ** The API client: what each operation sends and how it reads the answer *)

Ltac go_unfold := unfold mbind, mret, Go_bind, Go_ret, bind, ret, Do in *.

Section ClientProperties.
Context {W : Type} `{GoLibrary}.
Implicit Types (c : Client W) (w : W).

Lemma EnvironmentVariableExists_run c (projectName envName : string) w :
  EnvironmentVariableExists c projectName envName w
  = match url_Parse (variableURL c projectName envName) with
    | Some err => (Returned (false, Some err), w)
    | None =>
        let '(r, w') := http.Do (httpClient c) (existsRequest c projectName envName) w in
        (Returned (existsResult r), w')
    end.
Proof.
  unfold EnvironmentVariableExists, NewRequest, variableURL.
  destruct (url_Parse _) as [err|]; [reflexivity|]. go_unfold.
  change (http.SetBasicAuth _ (token c) EmptyString) with (existsRequest c projectName envName).
  destruct (http.Do _ _ _) as [[resp|err] w']; [|reflexivity].
  unfold existsResult, http.StatusOK, http.StatusNotFound.
  destruct (http.StatusCode resp =? 200); [reflexivity|].
  destruct (http.StatusCode resp =? 404); reflexivity.
Qed.

Lemma AddEnvironmentVariable_run c (projectName envName envValue : string) w :
  AddEnvironmentVariable c projectName envName envValue w
  = match json_Encode {| Name := envName; Value := envValue |} with
    | inr err => (Returned (Some err), w)
    | inl body =>
        match url_Parse (buildApiURL c projectName envvarEndpoint) with
        | Some err => (Returned (Some err), w)
        | None =>
            let '(r, w') := http.Do (httpClient c) (createRequest c projectName body) w in
            (Returned (addResult r), w')
        end
    end.
Proof.
  unfold AddEnvironmentVariable, NewRequest.
  destruct (json_Encode _) as [body|err]; [|reflexivity].
  destruct (url_Parse _) as [err|]; [reflexivity|]. go_unfold.
  change (http.SetBasicAuth _ (token c) EmptyString) with (createRequest c projectName body).
  destruct (http.Do _ _ _) as [[resp|err] w']; [|reflexivity].
  unfold addResult, http.StatusCreated.
  destruct (http.StatusCode resp =? 201); reflexivity.
Qed.

Lemma GetEnvironmentVariable_run c (projectName envName : string) w :
  GetEnvironmentVariable c projectName envName w
  = match url_Parse (variableURL c projectName envName) with
    | Some err => (Returned (None, Some err), w)
    | None =>
        let '(r, w') := http.Do (httpClient c) (readRequest c projectName envName) w in
        (Returned
           match r with
           | inr err => (None, Some err)
           | inl resp =>
               if http.StatusCode resp =? 200 then
                 match json_Decode (http.Body resp) with
                 | inr err => (None, Some err)
                 | inl e => (Some e, None)
                 end
               else (None, Some (Errorf (wrongStatus (http.StatusCode resp) "getting")))
           end, w')
    end.
Proof.
  unfold GetEnvironmentVariable, NewRequest, variableURL.
  destruct (url_Parse _) as [err|]; [reflexivity|]. go_unfold.
  change (http.SetBasicAuth _ (token c) EmptyString) with (readRequest c projectName envName).
  destruct (http.Do _ _ _) as [[resp|err] w']; [|reflexivity].
  unfold http.StatusOK.
  destruct (http.StatusCode resp =? 200); [|reflexivity].
  destruct (json_Decode _); reflexivity.
Qed.

Lemma DeleteEnvironmentVariable_run c (projectName envName : string) w :
  DeleteEnvironmentVariable c projectName envName w
  = match url_Parse (variableURL c projectName envName) with
    | Some err => (Returned (Some err), w)
    | None =>
        let '(r, w') := http.Do (httpClient c) (deleteRequest c projectName envName) w in
        (Returned (deleteResult r), w')
    end.
Proof.
  unfold DeleteEnvironmentVariable, NewRequest, variableURL.
  destruct (url_Parse _) as [err|]; [reflexivity|]. go_unfold.
  change (http.SetBasicAuth _ (token c) EmptyString) with (deleteRequest c projectName envName).
  destruct (http.Do _ _ _) as [[resp|err] w']; [|reflexivity].
  unfold deleteResult, http.StatusOK.
  destruct (http.StatusCode resp =? 200); reflexivity.
Qed.

(** The operations of the client return: none of them panics. *)
Lemma EnvironmentVariableExists_returns c (projectName envName : string) w :
  exists r w', EnvironmentVariableExists c projectName envName w = (Returned r, w').
Proof.
  rewrite EnvironmentVariableExists_run. destruct (url_Parse _); [eauto|].
  destruct (http.Do _ _ _); eauto.
Qed.

Lemma AddEnvironmentVariable_returns c (projectName envName envValue : string) w :
  exists r w', AddEnvironmentVariable c projectName envName envValue w = (Returned r, w').
Proof.
  rewrite AddEnvironmentVariable_run. destruct (json_Encode _); [|eauto].
  destruct (url_Parse _); [eauto|]. destruct (http.Do _ _ _); eauto.
Qed.

Lemma GetEnvironmentVariable_returns c (projectName envName : string) w :
  exists r w', GetEnvironmentVariable c projectName envName w = (Returned r, w').
Proof.
  rewrite GetEnvironmentVariable_run. destruct (url_Parse _); [eauto|].
  destruct (http.Do _ _ _); eauto.
Qed.

(** The text for an unexpected status holds the status code. *)
Lemma wrongStatus_code (code : Z) (doing : string) :
  Contains (wrongStatus code doing) (formatInt code) = true.
Proof. apply (Contains_app "circleci: wrong status code "). Qed.

Lemma create_wrong_status_code (code : Z) :
  Contains ("client: create wrong status code " +:+ formatInt code) (formatInt code) = true.
Proof. apply Contains_suffix. Qed.

End ClientProperties.

(** The cases of [TestClient_buildApiURL]. *)
Example buildApiURL_project1 :
  buildApiURL (fst (NewClient (testingRoundTripper (answer 200 EmptyString))
                      "something" "github" "circleci" [])) "project1" "test1"
  = "https://circleci.com/api/v1.1/project/github/circleci/project1/test1".
Proof. reflexivity. Qed.

Example buildApiURL_project2 :
  buildApiURL (fst (NewClient (testingRoundTripper (answer 200 EmptyString))
                      "something" "bitbucket" "circleci" [])) "project2" "test2"
  = "https://circleci.com/api/v1.1/project/bitbucket/circleci/project2/test2".
Proof. reflexivity. Qed.

(** [TestClient_AddEnvironmentVariableOK]: the request that the transport
    is given, and the result. *)
Example AddEnvironmentVariableOK :
  let c := traced (testClient (answer 201 EmptyString)) in
  @AddEnvironmentVariable _ goStd c "bar" "key" "value" (tt, [])
  = (Returned None,
     (tt, [ {| http.Method := "POST";
               http.URL := "https://circleci.com/api/v1.1/project/github/foo/bar/envvar";
               http.Header :=
                 <["Authorization" := ["Basic dG9rZW46"]]>
                   (<["Content-Type" := ["application/json; charset=utf-8"]]>
                      (<["Accept" := ["application/json"]]> ∅));
               http.ReqBody :=
                 Some (json.dq "{'name':'key','value':'value'}" +:+ String "010" EmptyString) |} ])).
Proof. vm_compute. reflexivity. Qed.

Section ClientClaims.
Context {W : Type} `{GoLibrary}.
Implicit Types (c : Client W) (w : W).

(** C4: for every project and name, when the existence check is
    answered, [EnvironmentVariableExists] returns [(true, nil)] on
    status 200, [(false, nil)] on status 404, and [false] with an error
    that describes the unexpected status code on every other status; a
    failure of the transport gives [false] and that error. *)
Theorem EnvironmentVariableExists_status c (projectName envName : string) w
    (r : http.Response + error) (w' : W) :
  url_Parse (variableURL c projectName envName) = None ->
  http.Do (httpClient c) (existsRequest c projectName envName) w = (r, w') ->
  exists res : bool * option error,
    EnvironmentVariableExists c projectName envName w = (Returned res, w')
    /\ match r with
       | inr err => res = (false, Some err)
       | inl resp =>
           (http.StatusCode resp = 200 -> res = (true, None))
           /\ (http.StatusCode resp = 404 -> res = (false, None))
           /\ (http.StatusCode resp <> 200 -> http.StatusCode resp <> 404 ->
               res = (false, Some (Errorf (wrongStatus (http.StatusCode resp) "getting")))
               /\ Contains (wrongStatus (http.StatusCode resp) "getting")
                    (formatInt (http.StatusCode resp)) = true)
       end.
Proof.
  intros Hurl Hdo. rewrite EnvironmentVariableExists_run, Hurl, Hdo.
  eexists. split; [reflexivity|].
  destruct r as [resp|err]; [|reflexivity]. unfold existsResult.
  split; [|split].
  - intros ->. reflexivity.
  - intros ->. reflexivity.
  - intros H200 H404.
    destruct (Z.eqb_spec (http.StatusCode resp) 200) as [|_]; [contradiction|].
    destruct (Z.eqb_spec (http.StatusCode resp) 404) as [|_]; [contradiction|].
    split; [reflexivity|apply wrongStatus_code].
Qed.

(** C5: for every project, name and value, when the creation request is
    answered, [AddEnvironmentVariable] returns no error exactly when
    the status is 201 and, on every other status, an error whose text
    holds that status code; a failure of the serialization or of the
    transport gives that error. *)
Theorem AddEnvironmentVariable_status c (projectName envName envValue : string) w :
  (forall err : error,
      json_Encode {| Name := envName; Value := envValue |} = inr err ->
      AddEnvironmentVariable c projectName envName envValue w = (Returned (Some err), w))
  /\ (forall (body : string) (r : http.Response + error) (w' : W),
        json_Encode {| Name := envName; Value := envValue |} = inl body ->
        url_Parse (buildApiURL c projectName envvarEndpoint) = None ->
        http.Do (httpClient c) (createRequest c projectName body) w = (r, w') ->
        exists res : option error,
          AddEnvironmentVariable c projectName envName envValue w = (Returned res, w')
          /\ match r with
             | inr err => res = Some err
             | inl resp =>
                 (res = None <-> http.StatusCode resp = 201)
                 /\ (http.StatusCode resp <> 201 ->
                     exists msg : string,
                       res = Some (Errorf msg)
                       /\ Contains msg (formatInt (http.StatusCode resp)) = true)
             end).
Proof.
  split.
  - intros err Henc. rewrite AddEnvironmentVariable_run, Henc. reflexivity.
  - intros body r w' Henc Hurl Hdo.
    rewrite AddEnvironmentVariable_run, Henc, Hurl, Hdo.
    eexists. split; [reflexivity|].
    destruct r as [resp|err]; [|reflexivity]. unfold addResult.
    destruct (Z.eqb_spec (http.StatusCode resp) 201) as [Heq|Hne].
    + split; [tauto|contradiction].
    + split; [split; [discriminate|contradiction]|].
      intros _. eexists. split; [reflexivity|apply create_wrong_status_code].
Qed.

(** C7: when the deletion request is answered,
    [DeleteEnvironmentVariable] returns no error exactly when the
    status is 200; on status 404 it returns the error whose text is
    "circleci: wrong status code 404 deleting environment variable". *)
Theorem DeleteEnvironmentVariable_status c (projectName envName : string) w
    (resp : http.Response) (w' : W) :
  url_Parse (variableURL c projectName envName) = None ->
  http.Do (httpClient c) (deleteRequest c projectName envName) w = (inl resp, w') ->
  exists res : option error,
    DeleteEnvironmentVariable c projectName envName w = (Returned res, w')
    /\ (res = None <-> http.StatusCode resp = 200)
    /\ (http.StatusCode resp = 404 ->
        res = Some (Errorf "circleci: wrong status code 404 deleting environment variable")).
Proof.
  intros Hurl Hdo. rewrite DeleteEnvironmentVariable_run, Hurl, Hdo.
  eexists. split; [reflexivity|]. unfold deleteResult.
  split.
  - destruct (Z.eqb_spec (http.StatusCode resp) 200); split; congruence.
  - intros ->. reflexivity.
Qed.

End ClientClaims.

Lemma EnvironmentVariableExists_status_witness :
  @EnvironmentVariableExists unit goStd (testClient (answer 200 EmptyString)) "bar" "key" tt
    = (Returned (true, None), tt)
  /\ @EnvironmentVariableExists unit goStd (testClient (answer 404 EmptyString)) "bar" "key" tt
    = (Returned (false, None), tt)
  /\ @EnvironmentVariableExists unit goStd (testClient (answer 500 EmptyString)) "bar" "key" tt
    = (Returned (false, Some (Errorf "circleci: wrong status code 500 getting environment variable")), tt).
Proof.
  split; [|split].
  - destruct (@EnvironmentVariableExists_status unit goStd
                (testClient (answer 200 EmptyString)) "bar" "key" tt _ tt eq_refl eq_refl)
      as (res & Hrun & H200 & _ & _).
    rewrite Hrun, (H200 eq_refl). reflexivity.
  - destruct (@EnvironmentVariableExists_status unit goStd
                (testClient (answer 404 EmptyString)) "bar" "key" tt _ tt eq_refl eq_refl)
      as (res & Hrun & _ & H404 & _).
    rewrite Hrun, (H404 eq_refl). reflexivity.
  - destruct (@EnvironmentVariableExists_status unit goStd
                (testClient (answer 500 EmptyString)) "bar" "key" tt _ tt eq_refl eq_refl)
      as (res & Hrun & _ & _ & Hother).
    rewrite Hrun. destruct Hother as [-> _]; [discriminate|discriminate|reflexivity].
Defined.

Lemma AddEnvironmentVariable_status_witness :
  @AddEnvironmentVariable unit goStd (testClient (answer 201 EmptyString)) "bar" "key" "value" tt
    = (Returned None, tt)
  /\ exists msg : string,
      @AddEnvironmentVariable unit goStd (testClient (answer 200 EmptyString)) "bar" "key" "value" tt
        = (Returned (Some (Errorf msg)), tt)
      /\ Contains msg "200" = true.
Proof.
  split.
  - destruct (proj2 (@AddEnvironmentVariable_status unit goStd
                (testClient (answer 201 EmptyString)) "bar" "key" "value" tt)
                _ _ tt eq_refl eq_refl eq_refl) as (res & Hrun & Hiff & _).
    rewrite Hrun. f_equal. f_equal. apply Hiff. reflexivity.
  - destruct (proj2 (@AddEnvironmentVariable_status unit goStd
                (testClient (answer 200 EmptyString)) "bar" "key" "value" tt)
                _ _ tt eq_refl eq_refl eq_refl) as (res & Hrun & _ & Hother).
    destruct Hother as (msg & -> & Hmsg); [discriminate|].
    exists msg. split; [exact Hrun|exact Hmsg].
Defined.

Lemma DeleteEnvironmentVariable_status_witness :
  @DeleteEnvironmentVariable unit goStd (testClient (answer 200 EmptyString)) "bar" "key" tt
    = (Returned None, tt)
  /\ @DeleteEnvironmentVariable unit goStd (testClient (answer 404 EmptyString)) "bar" "key" tt
    = (Returned (Some (Errorf "circleci: wrong status code 404 deleting environment variable")), tt).
Proof.
  split.
  - destruct (@DeleteEnvironmentVariable_status unit goStd
                (testClient (answer 200 EmptyString)) "bar" "key" tt _ tt eq_refl eq_refl)
      as (res & Hrun & Hiff & _).
    rewrite Hrun. f_equal. f_equal. apply Hiff. reflexivity.
  - destruct (@DeleteEnvironmentVariable_status unit goStd
                (testClient (answer 404 EmptyString)) "bar" "key" tt _ tt eq_refl eq_refl)
      as (res & Hrun & _ & H404).
    rewrite Hrun, (H404 eq_refl). reflexivity.
Defined.



Section StatusErrors.
Context {W : Type} `{GoLibrary}.
Implicit Types (c : Client W) (w : W).

(** C8, as the code has it: the error for an unexpected status, from
    each of the four operations of the client, is a fixed text around
    the status code.  It holds the raw status code and nothing of the
    project or of the variable. *)
Theorem unexpected_status_error_text c (projectName envName envValue : string) w
    (resp : http.Response) (w' : W) :
  let code := http.StatusCode resp in
  (forall body : string,
      json_Encode {| Name := envName; Value := envValue |} = inl body ->
      url_Parse (buildApiURL c projectName envvarEndpoint) = None ->
      http.Do (httpClient c) (createRequest c projectName body) w = (inl resp, w') ->
      code <> 201 ->
      AddEnvironmentVariable c projectName envName envValue w
      = (Returned (Some (Errorf ("client: create wrong status code " +:+ formatInt code))), w'))
  /\ (url_Parse (variableURL c projectName envName) = None ->
      http.Do (httpClient c) (readRequest c projectName envName) w = (inl resp, w') ->
      code <> 200 ->
      GetEnvironmentVariable c projectName envName w
      = (Returned (None, Some (Errorf ("circleci: wrong status code " +:+ formatInt code
                                       +:+ " getting environment variable"))), w'))
  /\ (url_Parse (variableURL c projectName envName) = None ->
      http.Do (httpClient c) (existsRequest c projectName envName) w = (inl resp, w') ->
      code <> 200 -> code <> 404 ->
      EnvironmentVariableExists c projectName envName w
      = (Returned (false, Some (Errorf ("circleci: wrong status code " +:+ formatInt code
                                        +:+ " getting environment variable"))), w'))
  /\ (url_Parse (variableURL c projectName envName) = None ->
      http.Do (httpClient c) (deleteRequest c projectName envName) w = (inl resp, w') ->
      code <> 200 ->
      DeleteEnvironmentVariable c projectName envName w
      = (Returned (Some (Errorf ("circleci: wrong status code " +:+ formatInt code
                                 +:+ " deleting environment variable"))), w'))
  /\ Contains ("client: create wrong status code " +:+ formatInt code) (formatInt code) = true
  /\ Contains ("circleci: wrong status code " +:+ formatInt code
               +:+ " getting environment variable") (formatInt code) = true
  /\ Contains ("circleci: wrong status code " +:+ formatInt code
               +:+ " deleting environment variable") (formatInt code) = true.
Proof.
  intros code. repeat split.
  - intros body Henc Hurl Hdo Hcode.
    rewrite AddEnvironmentVariable_run, Henc, Hurl, Hdo. unfold addResult. fold code.
    destruct (Z.eqb_spec code 201); [contradiction|reflexivity].
  - intros Hurl Hdo Hcode.
    rewrite GetEnvironmentVariable_run, Hurl, Hdo. fold code.
    destruct (Z.eqb_spec code 200); [contradiction|reflexivity].
  - intros Hurl Hdo H200 H404.
    rewrite EnvironmentVariableExists_run, Hurl, Hdo. unfold existsResult. fold code.
    destruct (Z.eqb_spec code 200); [contradiction|].
    destruct (Z.eqb_spec code 404); [contradiction|reflexivity].
  - intros Hurl Hdo Hcode.
    rewrite DeleteEnvironmentVariable_run, Hurl, Hdo. unfold deleteResult. fold code.
    destruct (Z.eqb_spec code 200); [contradiction|reflexivity].
  - apply create_wrong_status_code.
  - apply (wrongStatus_code code "getting").
  - apply (wrongStatus_code code "deleting").
Qed.

End StatusErrors.

Lemma unexpected_status_error_text_witness :
  @AddEnvironmentVariable unit goStd (testClient (answer 500 EmptyString)) "bar" "key" "value" tt
    = (Returned (Some (Errorf "client: create wrong status code 500")), tt)
  /\ @GetEnvironmentVariable unit goStd (testClient (answer 500 EmptyString)) "bar" "key" tt
    = (Returned (None, Some (Errorf "circleci: wrong status code 500 getting environment variable")), tt)
  /\ @EnvironmentVariableExists unit goStd (testClient (answer 500 EmptyString)) "bar" "key" tt
    = (Returned (false, Some (Errorf "circleci: wrong status code 500 getting environment variable")), tt)
  /\ @DeleteEnvironmentVariable unit goStd (testClient (answer 500 EmptyString)) "bar" "key" tt
    = (Returned (Some (Errorf "circleci: wrong status code 500 deleting environment variable")), tt).
Proof.
  destruct (@unexpected_status_error_text unit goStd (testClient (answer 500 EmptyString))
              "bar" "key" "value" tt {| http.StatusCode := 500; http.Body := EmptyString |} tt)
    as (Hadd & Hget & Hexists & Hdelete & _).
  split; [|split; [|split]].
  - apply (Hadd _ eq_refl eq_refl eq_refl). discriminate.
  - apply (Hget eq_refl eq_refl). discriminate.
  - apply (Hexists eq_refl eq_refl); discriminate.
  - apply (Hdelete eq_refl eq_refl). discriminate.
Defined.

(** C8 as the specification words it fails: on status 400 for the
    variable "key" of the project "bar", the texts of the errors hold
    the status code, but neither "bar" nor "key". *)
Lemma status_error_names_nothing :
  exists e1 e2 e3 e4 : error,
    @AddEnvironmentVariable unit goStd (testClient (answer 400 EmptyString)) "bar" "key" "value" tt
      = (Returned (Some e1), tt)
    /\ @GetEnvironmentVariable unit goStd (testClient (answer 400 EmptyString)) "bar" "key" tt
      = (Returned (None, Some e2), tt)
    /\ @EnvironmentVariableExists unit goStd (testClient (answer 400 EmptyString)) "bar" "key" tt
      = (Returned (false, Some e3), tt)
    /\ @DeleteEnvironmentVariable unit goStd (testClient (answer 400 EmptyString)) "bar" "key" tt
      = (Returned (Some e4), tt)
    /\ Forall (fun e => Contains (Error e) "400" = true
                        /\ Contains (Error e) "bar" = false
                        /\ Contains (Error e) "key" = false) [e1; e2; e3; e4].
Proof.
  do 4 eexists. repeat split; try reflexivity.
  repeat constructor.
Qed.

(* ------------------------------------------------------------------ *)
(** ** The resource adapter *)

Section AdapterProperties.
Context {W : Type} `{GoLibrary}.
Implicit Types (c : Client W) (w : W) (d : schema.ResourceData).

Lemma alreadyExists_names (envName projectName : string) :
  Contains (alreadyExists envName projectName) envName = true
  /\ Contains (alreadyExists envName projectName) projectName = true.
Proof.
  split.
  - apply (Contains_app "environment variable '").
  - unfold alreadyExists. do 2 apply Contains_skip.
    apply (Contains_app "' already exists for project '").
Qed.


(** The paths of [Create], one by one. *)
Lemma Create_cases d c w :
  let projectName := schema.Get d "project" in
  let envName := schema.Get d "name" in
  let envValue := schema.Get d "value" in
  exists (found : bool) (err : option error) (w1 : W),
    EnvironmentVariableExists c projectName envName w = (Returned (found, err), w1)
    /\ match err, found with
       | Some e, _ =>
           resourceCircleCIEnvironmentVariableCreate d c w = (Returned (d, Some e), w1)
       | None, true =>
           resourceCircleCIEnvironmentVariableCreate d c w
           = (Returned (d, Some (Errorf (alreadyExists envName projectName))), w1)
       | None, false =>
           exists (r : option error) (w2 : W),
             AddEnvironmentVariable c projectName envName envValue w1 = (Returned r, w2)
             /\ match r with
                | Some e =>
                    resourceCircleCIEnvironmentVariableCreate d c w = (Returned (d, Some e), w2)
                | None =>
                    resourceCircleCIEnvironmentVariableCreate d c w
                    = resourceCircleCIEnvironmentVariableRead (schema.SetId d envName) c w2
                end
       end.
Proof.
  intros projectName envName envValue.
  destruct (EnvironmentVariableExists_returns c projectName envName w)
    as ([found err] & w1 & Hexists).
  exists found, err, w1. split; [exact Hexists|].
  unfold resourceCircleCIEnvironmentVariableCreate. go_unfold.
  fold projectName envName envValue. rewrite Hexists.
  destruct err as [e|]; [reflexivity|]. destruct found; [reflexivity|].
  destruct (AddEnvironmentVariable_returns c projectName envName envValue w1)
    as (r & w2 & Hadd).
  exists r, w2. split; [exact Hadd|]. rewrite Hadd.
  destruct r; reflexivity.
Qed.

(** The adapter's [Exists] panics before it calls the client. *)
Lemma Exists_panics d c w :
  resourceCircleCIEnvironmentVariableExists d c w
  = (Panicked ("project: " +:+ schema.Get d "project" +:+ " name: " +:+ schema.Get d "name"
               +:+ String "010" EmptyString), w).
Proof. reflexivity. Qed.

End AdapterProperties.

(** The existence check sends at most one request, a [HEAD]. *)
Lemma EnvironmentVariableExists_sends `{GoLibrary} {W : Type} (c : Client W)
    (projectName envName : string) (w : W) (log : list http.Request)
    (res : bool * option error) (wl : W * list http.Request) :
  EnvironmentVariableExists (traced c) projectName envName (w, log) = (Returned res, wl) ->
  exists sent : list http.Request,
    snd wl = log ++ sent /\ Forall (fun r => http.Method r = "HEAD") sent.
Proof.
  rewrite EnvironmentVariableExists_run. destruct (url_Parse _).
  - intros [= _ <-]. exists []. split; [symmetry; apply app_nil_r|constructor].
  - cbn. destruct (http.Do _ _ _) as [r w']. intros [= _ <-].
    eexists. split; [reflexivity|]. repeat constructor.
Qed.

Section AdapterClaims.
Context {W : Type} `{GoLibrary}.
Implicit Types (c : Client W) (w : W) (d : schema.ResourceData).

(** C2, as the code has it: [Create] first performs the client's
    existence check.  If the check fails, [Create] returns its error and
    does nothing more.  If it reports that the variable exists,
    [Create] returns a conflict error that names the variable and the
    project, and the client's create is not called: the requests sent
    are those of the check, all of method [HEAD].  Otherwise it calls
    the client's create; if that fails, [Create] returns its error with
    the record as it was; if it succeeds, [Create] sets the identity to
    the name of the variable and then is the adapter's [Read]. *)
Theorem Create_sequence d c w :
  let projectName := schema.Get d "project" in
  let envName := schema.Get d "name" in
  let envValue := schema.Get d "value" in
  (exists (found : bool) (err : option error) (w1 : W),
      EnvironmentVariableExists c projectName envName w = (Returned (found, err), w1)
      /\ match err, found with
         | Some e, _ =>
             resourceCircleCIEnvironmentVariableCreate d c w = (Returned (d, Some e), w1)
         | None, true =>
             exists msg : string,
               resourceCircleCIEnvironmentVariableCreate d c w
               = (Returned (d, Some (Errorf msg)), w1)
               /\ Contains msg envName = true /\ Contains msg projectName = true
         | None, false =>
             exists (r : option error) (w2 : W),
               AddEnvironmentVariable c projectName envName envValue w1 = (Returned r, w2)
               /\ match r with
                  | Some e =>
                      resourceCircleCIEnvironmentVariableCreate d c w
                      = (Returned (d, Some e), w2)
                  | None =>
                      resourceCircleCIEnvironmentVariableCreate d c w
                      = resourceCircleCIEnvironmentVariableRead (schema.SetId d envName) c w2
                  end
         end)
  /\ (forall (log : list http.Request) (found : bool) (err : option error)
             (wl : W * list http.Request),
        EnvironmentVariableExists (traced c) projectName envName (w, log)
          = (Returned (found, err), wl) ->
        err <> None \/ found = true ->
        snd (resourceCircleCIEnvironmentVariableCreate d (traced c) (w, log)) = wl
        /\ exists sent : list http.Request,
             snd wl = log ++ sent /\ Forall (fun r => http.Method r = "HEAD") sent).
Proof.
  intros projectName envName envValue. split.
  - destruct (Create_cases d c w) as (found & err & w1 & Hexists & Hcases).
    exists found, err, w1. split; [exact Hexists|].
    destruct err as [e|]; [exact Hcases|]. destruct found; [|exact Hcases].
    eexists. split; [exact Hcases|]. apply alreadyExists_names.
  - intros log found err wl Hexists Hno. split.
    + unfold resourceCircleCIEnvironmentVariableCreate. go_unfold.
      fold projectName envName. rewrite Hexists.
      destruct err as [e|]; [reflexivity|]. destruct found; [reflexivity|].
      destruct Hno; congruence.
    + exact (EnvironmentVariableExists_sends c projectName envName w log _ wl Hexists).
Qed.


End AdapterClaims.

Lemma Create_sequence_witness :
  exists msg : string,
    @resourceCircleCIEnvironmentVariableCreate unit goStd barKey
       (testClient (byMethod (status 200) (status 201) (status 200))) tt
    = (Returned (barKey, Some (Errorf msg)), tt)
    /\ Contains msg "key" = true /\ Contains msg "bar" = true.
Proof.
  destruct (proj1 (@Create_sequence unit goStd barKey
                     (testClient (byMethod (status 200) (status 201) (status 200))) tt))
    as (found & err & w1 & Hexists & Hcases).
  vm_compute in Hexists. injection Hexists as <- <- <-. exact Hcases.
Defined.


(** C2 as the specification words it fails when the existence check
    itself fails: on status 500 for the check, the check does not
    report the variable, yet [Create] returns the error of the check
    after that one request, where calling the client's create, setting
    the identity and reading would have sent three requests and
    returned the record with its identity set. *)
Lemma Create_differs_from_specified :
  let c := traced (testClient (byMethod (status 500) (status 201)
                     (inl {| http.StatusCode := 200;
                             http.Body := json.dq "{'name':'key','value':'value'}" |}))) in
  let e := Errorf "circleci: wrong status code 500 getting environment variable" in
  @EnvironmentVariableExists _ goStd c "bar" "key" (tt, [])
    = (Returned (false, Some e), (tt, [existsRequest c "bar" "key"]))
  /\ @resourceCircleCIEnvironmentVariableCreate _ goStd barKey c (tt, [])
    = (Returned (barKey, Some e), (tt, [existsRequest c "bar" "key"]))
  /\ @createAsSpecified goStd _ barKey c (tt, [])
    = (Returned (schema.SetId barKey "key", None),
       (tt, [existsRequest c "bar" "key";
             createRequest c "bar" (json.dq "{'name':'key','value':'value'}" +:+ String "010" EmptyString);
             readRequest c "bar" "key"]))
  /\ @resourceCircleCIEnvironmentVariableCreate _ goStd barKey c (tt, [])
     <> @createAsSpecified goStd _ barKey c (tt, []).
Proof.
  intros c e. split; [|split; [|split]].
  - vm_compute. reflexivity.
  - reflexivity.
  - reflexivity.
  - intros Heq.
    apply (f_equal (fun x => match fst x with
                             | Returned (_, None) => true
                             | _ => false
                             end)) in Heq.
    vm_compute in Heq. discriminate Heq.
Qed.


(** C1 fails on the code: for the variable "key" of the project "bar",
    which the client's check reports to exist, the adapter's [Exists]
    panics with the text "project: bar name: key" and a newline where
    the claim has it return the result of the client's check. *)
Lemma Exists_panics_instead_of_delegating :
  let c := testClient (answer 200 EmptyString) in
  @resourceCircleCIEnvironmentVariableExists unit goStd barKey c tt
    = (Panicked ("project: bar name: key" +:+ String "010" EmptyString), tt)
  /\ @EnvironmentVariableExists unit goStd c "bar" "key" tt = (Returned (true, None), tt)
  /\ forall (W : Type) (lib : GoLibrary) (d : schema.ResourceData) (m : Client W) (w : W)
            (res : bool * option error) (w' : W),
       @resourceCircleCIEnvironmentVariableExists W lib d m w <> (Returned res, w').
Proof.
  intros c. split; [reflexivity|]. split; [reflexivity|].
  intros W lib d m w res w'. rewrite Exists_panics. discriminate.
Qed.

(* ------------------------------------------------------------------ *)
(** ** Construction of the client *)

Lemma fold_opts_only_baseURL {W : Type} (opts : list (ClientOpt W)) :
  Forall (fun opt => exists u, opt = WithBaseURL u) opts ->
  forall client : Client W,
    let client' := fold_left (fun client opt => fst (opt client)) opts client in
    token client' = token client /\ vcsType client' = vcsType client
    /\ organization client' = organization client /\ httpClient client' = httpClient client.
Proof.
  induction 1 as [|opt opts [u ->] _ IH]; intros client; [cbn; auto|].
  cbn [fold_left]. destruct (IH (fst (WithBaseURL u client))) as (Ht & Hv & Ho & Hh).
  cbn in Ht, Hv, Ho, Hh |- *. auto.
Qed.

(** X1: [NewClient] never fails: it drops the errors of its options.
    Without options the client has the default base URL and the
    arguments as they are; options made by [WithBaseURL] change the base
    URL only, and the last one decides it. *)
Theorem NewClient_options {W : Type} (DefaultClient : http.Client W)
    (tok vcs org : string) (opts : list (ClientOpt W)) :
  snd (NewClient DefaultClient tok vcs org opts) = None
  /\ fst (NewClient DefaultClient tok vcs org [])
     = {| baseURL := defaultBaseURL; token := tok; vcsType := vcs;
          organization := org; httpClient := DefaultClient |}
  /\ (forall u : string,
        baseURL (fst (NewClient DefaultClient tok vcs org (opts ++ [WithBaseURL u]))) = u)
  /\ (Forall (fun opt => exists u, opt = WithBaseURL u) opts ->
      let c := fst (NewClient DefaultClient tok vcs org opts) in
      token c = tok /\ vcsType c = vcs /\ organization c = org
      /\ httpClient c = DefaultClient).
Proof.
  split; [reflexivity|]. split; [reflexivity|]. split.
  - intros u. unfold NewClient. cbn [fst]. rewrite fold_left_app. reflexivity.
  - intros Hopts. unfold NewClient. cbn [fst].
    apply (fold_opts_only_baseURL opts Hopts).
Qed.

Lemma NewClient_options_witness :
  let failing : ClientOpt unit := fun c => (c, Some (Errorf "option failed")) in
  let c := fst (NewClient (testingRoundTripper (answer 200 EmptyString)) "t" "github" "foo"
                  [WithBaseURL "http://a"; WithBaseURL "http://b"]) in
  snd (NewClient (testingRoundTripper (answer 200 EmptyString)) "t" "github" "foo" [failing]) = None
  /\ baseURL c = "http://b" /\ token c = "t" /\ vcsType c = "github" /\ organization c = "foo".
Proof.
  intros failing c.
  destruct (NewClient_options (testingRoundTripper (answer 200 EmptyString)) "t" "github" "foo"
              [failing]) as (Hnil & _).
  destruct (NewClient_options (testingRoundTripper (answer 200 EmptyString)) "t" "github" "foo"
              [WithBaseURL "http://a"]) as (_ & _ & Hlast & _).
  destruct (NewClient_options (testingRoundTripper (answer 200 EmptyString)) "t" "github" "foo"
              [WithBaseURL "http://a"; WithBaseURL "http://b"]) as (_ & _ & _ & Hkeep).
  split; [exact Hnil|]. split; [exact (Hlast "http://b")|].
  destruct Hkeep as (Ht & Hv & Ho & _); [repeat constructor; eexists; reflexivity|].
  auto.
Defined.

(* ------------------------------------------------------------------ *)
(** ** More on the validation of names *)

Lemma allb_app (p : ascii -> bool) (s t : string) :
  allb p (s +:+ t) = allb p s && allb p t.
Proof.
  induction s as [|a s IH]; [reflexivity|].
  rewrite append_cons. cbn [allb]. rewrite IH. apply andb_assoc.
Qed.

Lemma allb_no_byte (p : ascii -> bool) (b : ascii) (s : string) :
  allb p s = true -> p b = false -> Contains s (String b EmptyString) = false.
Proof.
  intros Hs Hb. induction s as [|a s IH]; [reflexivity|].
  cbn [allb] in Hs. apply andb_true_iff in Hs as [Ha Hs].
  cbn [Contains String.prefix]. rewrite (IH Hs).
  destruct (ascii_dec b a) as [->|_]; [congruence|reflexivity].
Qed.

(** X2: [ValidateEnvironmentVariableName] accepts a name exactly when the
    name is not empty, its first byte is a letter and every other byte
    is a letter, a digit or an underscore.  An accepted name holds no
    byte of another kind: no slash, no space, no byte above 127. *)
Theorem ValidateEnvironmentVariableName_iff (name : string) :
  (ValidateEnvironmentVariableName name = true
   <-> exists (a : ascii) (t : string),
         name = String a t /\ regexp.alpha a = true /\ allb regexp.word t = true)
  /\ (ValidateEnvironmentVariableName name = true ->
      forall b : ascii,
        regexp.word b = false -> Contains name (String b EmptyString) = false).
Proof.
  rewrite ValidateEnvironmentVariableName_shape. split; [split|].
  - destruct name as [|a t]; [discriminate|]. cbn [letter_then_word].
    intros Hv. apply andb_true_iff in Hv as [Ha Ht]. eauto.
  - intros (a & t & -> & Ha & Ht). cbn [letter_then_word]. rewrite Ha, Ht. reflexivity.
  - destruct name as [|a t]; [discriminate|]. cbn [letter_then_word].
    intros Hv b Hb. apply andb_true_iff in Hv as [Ha Ht].
    apply (allb_no_byte regexp.word); [|exact Hb].
    cbn [allb]. rewrite (alpha_word a Ha), Ht. reflexivity.
Qed.

Lemma ValidateEnvironmentVariableName_iff_witness :
  Contains "CIRCLE_token2" "/" = false /\ Contains "CIRCLE_token2" " " = false.
Proof.
  split; apply (proj2 (ValidateEnvironmentVariableName_iff "CIRCLE_token2")); reflexivity.
Defined.

(** X3: text added to a name that is not empty keeps the verdict of
    [ValidateEnvironmentVariableName] exactly when it is made of
    letters, digits and underscores. *)
Theorem ValidateEnvironmentVariableName_append (name more : string) :
  name <> EmptyString ->
  ValidateEnvironmentVariableName (name +:+ more)
  = ValidateEnvironmentVariableName name && allb regexp.word more.
Proof.
  intros Hne. rewrite !ValidateEnvironmentVariableName_shape.
  destruct name as [|a t]; [congruence|].
  rewrite append_cons. cbn [letter_then_word]. rewrite allb_app. apply andb_assoc.
Qed.

Lemma ValidateEnvironmentVariableName_append_witness :
  ValidateEnvironmentVariableName ("API" +:+ "_KEY") = true
  /\ ValidateEnvironmentVariableName ("API" +:+ "-KEY") = false.
Proof.
  split.
  - rewrite (ValidateEnvironmentVariableName_append "API" "_KEY"); [reflexivity|discriminate].
  - rewrite (ValidateEnvironmentVariableName_append "API" "-KEY"); [reflexivity|discriminate].
Defined.

(** X4: [validateName] never gives a warning.  It gives no error exactly on
    a string that [ValidateEnvironmentVariableName] accepts; on another
    string it gives one error, whose text holds the string; on a value
    that is not a string it gives one error, whose text holds the name
    of the key. *)
Theorem validateName_verdict (i : schema.any) (keyName : string) :
  fst (validateName i keyName) = []
  /\ (snd (validateName i keyName) = []
      <-> exists v : string,
            i = schema.StringValue v /\ ValidateEnvironmentVariableName v = true)
  /\ (forall v : string,
        i = schema.StringValue v -> ValidateEnvironmentVariableName v = false ->
        exists msg : string,
          snd (validateName i keyName) = [Errorf msg] /\ Contains msg v = true)
  /\ ((forall v : string, i <> schema.StringValue v) ->
      exists msg : string,
        snd (validateName i keyName) = [Errorf msg] /\ Contains msg keyName = true).
Proof.
  split; [|split; [|split]].
  - destruct i as [v| |]; cbn; [destruct (ValidateEnvironmentVariableName v)|..]; reflexivity.
  - split.
    + destruct i as [v| |]; cbn; [|discriminate..].
      destruct (ValidateEnvironmentVariableName v) eqn:Hv; [eauto|discriminate].
    + intros (v & -> & Hv). cbn. rewrite Hv. reflexivity.
  - intros v -> Hv. cbn. rewrite Hv. cbn. eexists. split; [reflexivity|].
    apply (Contains_app "environment variable name ").
  - intros Hns. destruct i as [v| |]; [destruct (Hns v); reflexivity|..];
      cbn; (eexists; split; [reflexivity|]); apply (Contains_app "expected type of ").
Qed.

Lemma validateName_verdict_witness :
  snd (validateName (schema.StringValue "MY_VAR") "name") = []
  /\ (exists msg : string,
        snd (validateName (schema.StringValue "2fast") "name") = [Errorf msg]
        /\ Contains msg "2fast" = true)
  /\ (exists msg : string,
        snd (validateName (schema.IntValue 7) "name") = [Errorf msg]
        /\ Contains msg "name" = true).
Proof.
  split; [|split].
  - apply (proj1 (proj2 (validateName_verdict (schema.StringValue "MY_VAR") "name"))).
    exists "MY_VAR". split; reflexivity.
  - apply (proj1 (proj2 (proj2 (validateName_verdict (schema.StringValue "2fast") "name")))
             "2fast"); reflexivity.
  - apply (proj2 (proj2 (proj2 (validateName_verdict (schema.IntValue 7) "name")))).
    intros v. discriminate.
Defined.

(* ------------------------------------------------------------------ *)
(** ** The API client: results and requests *)

Section ClientResults.
Context {W : Type} `{GoLibrary}.
Implicit Types (c : Client W) (w : W).

Lemma DeleteEnvironmentVariable_returns c (projectName envName : string) w :
  exists r w', DeleteEnvironmentVariable c projectName envName w = (Returned r, w').
Proof.
  rewrite DeleteEnvironmentVariable_run. destruct (url_Parse _); [eauto|].
  destruct (http.Do _ _ _); eauto.
Qed.

(** X5: [GetEnvironmentVariable] fails with the error of [http.NewRequest]
    before it sends anything when the URL does not parse.  When its
    request is answered, it returns the error of the transport as it
    is; on a status other than 200 it returns an error for that status
    and does not look at the body; on status 200 it returns what the
    body decodes to, or the error of the decoder as it is. *)
Theorem GetEnvironmentVariable_status c (projectName envName : string) w :
  (forall err : error,
      url_Parse (variableURL c projectName envName) = Some err ->
      GetEnvironmentVariable c projectName envName w = (Returned (None, Some err), w))
  /\ (forall (r : http.Response + error) (w' : W),
        url_Parse (variableURL c projectName envName) = None ->
        http.Do (httpClient c) (readRequest c projectName envName) w = (r, w') ->
        exists res : option EnvironmentVariable * option error,
          GetEnvironmentVariable c projectName envName w = (Returned res, w')
          /\ match r with
             | inr err => res = (None, Some err)
             | inl resp =>
                 (http.StatusCode resp <> 200 ->
                  res = (None, Some (Errorf (wrongStatus (http.StatusCode resp) "getting"))))
                 /\ (http.StatusCode resp = 200 ->
                     res = match json_Decode (http.Body resp) with
                           | inl e => (Some e, None)
                           | inr err => (None, Some err)
                           end)
             end).
Proof.
  split.
  - intros err Hurl. rewrite GetEnvironmentVariable_run, Hurl. reflexivity.
  - intros r w' Hurl Hdo. rewrite GetEnvironmentVariable_run, Hurl, Hdo.
    eexists. split; [reflexivity|]. destruct r as [resp|err]; [|reflexivity].
    destruct (Z.eqb_spec (http.StatusCode resp) 200) as [Heq|Hne].
    + split; [contradiction|]. intros _. destruct (json_Decode _); reflexivity.
    + split; [reflexivity|contradiction].
Qed.

(** X6: [GetEnvironmentVariable] returns a variable exactly when it returns
    no error: its result is never nil without an error, and never comes
    with an error. *)
Theorem GetEnvironmentVariable_result c (projectName envName : string) w
    (e : option EnvironmentVariable) (err : option error) (w' : W) :
  GetEnvironmentVariable c projectName envName w = (Returned (e, err), w') ->
  (e = None <-> err <> None).
Proof.
  rewrite GetEnvironmentVariable_run. destruct (url_Parse _).
  { intros [= <- <- _]. split; congruence. }
  destruct (http.Do _ _ _) as [[resp|err'] w1].
  - destruct (http.StatusCode resp =? 200).
    + destruct (json_Decode _); intros [= <- <- _]; split; congruence.
    + intros [= <- <- _]. split; congruence.
  - intros [= <- <- _]. split; congruence.
Qed.

(** X7: [EnvironmentVariableExists] reports a variable only without an
    error: whenever it returns an error, its boolean is false. *)
Theorem EnvironmentVariableExists_result c (projectName envName : string) w
    (found : bool) (err : error) (w' : W) :
  EnvironmentVariableExists c projectName envName w = (Returned (found, Some err), w') ->
  found = false.
Proof.
  rewrite EnvironmentVariableExists_run. destruct (url_Parse _).
  { intros [= <- _ _]. reflexivity. }
  destruct (http.Do _ _ _) as [[resp|err'] w1]; cbn [existsResult].
  - destruct (http.StatusCode resp =? 200); [discriminate|].
    destruct (http.StatusCode resp =? 404); intros [= <- _ _]; reflexivity.
  - intros [= <- _ _]. reflexivity.
Qed.

(** On the recording transport an operation gives the result that it
    gives on the transport itself, and the record grows by the request
    of the operation if it could be built. *)
Lemma EnvironmentVariableExists_traced c (projectName envName : string) w
    (log : list http.Request) :
  EnvironmentVariableExists (traced c) projectName envName (w, log)
  = let '(res, w') := EnvironmentVariableExists c projectName envName w in
    (res, (w', log ++ sentIf (parses (variableURL c projectName envName))
                        (existsRequest c projectName envName))).
Proof.
  rewrite !EnvironmentVariableExists_run. unfold parses.
  change (variableURL (traced c) projectName envName) with (variableURL c projectName envName).
  destruct (url_Parse _); [cbn; rewrite app_nil_r; reflexivity|].
  change (existsRequest (traced c) projectName envName) with (existsRequest c projectName envName).
  cbn. destruct (http.Do _ _ _). reflexivity.
Qed.

Lemma AddEnvironmentVariable_traced c (projectName envName envValue : string) w
    (log : list http.Request) :
  AddEnvironmentVariable (traced c) projectName envName envValue (w, log)
  = let '(res, w') := AddEnvironmentVariable c projectName envName envValue w in
    (res, (w', log ++ match json_Encode {| Name := envName; Value := envValue |} with
                      | inl body =>
                          sentIf (parses (buildApiURL c projectName envvarEndpoint))
                            (createRequest c projectName body)
                      | inr _ => []
                      end)).
Proof.
  rewrite !AddEnvironmentVariable_run. unfold parses.
  destruct (json_Encode _) as [body|err]; [|rewrite app_nil_r; reflexivity].
  change (buildApiURL (traced c) projectName envvarEndpoint)
    with (buildApiURL c projectName envvarEndpoint).
  destruct (url_Parse _); [cbn; rewrite app_nil_r; reflexivity|].
  change (createRequest (traced c) projectName body) with (createRequest c projectName body).
  cbn. destruct (http.Do _ _ _). reflexivity.
Qed.

Lemma GetEnvironmentVariable_traced c (projectName envName : string) w
    (log : list http.Request) :
  GetEnvironmentVariable (traced c) projectName envName (w, log)
  = let '(res, w') := GetEnvironmentVariable c projectName envName w in
    (res, (w', log ++ sentIf (parses (variableURL c projectName envName))
                        (readRequest c projectName envName))).
Proof.
  rewrite !GetEnvironmentVariable_run. unfold parses.
  change (variableURL (traced c) projectName envName) with (variableURL c projectName envName).
  destruct (url_Parse _); [cbn; rewrite app_nil_r; reflexivity|].
  change (readRequest (traced c) projectName envName) with (readRequest c projectName envName).
  cbn. destruct (http.Do _ _ _). reflexivity.
Qed.


End ClientResults.

Section ClientRequests.
Context {W : Type} `{GoLibrary}.
Implicit Types (c : Client W) (w : W).


End ClientRequests.

(* ------------------------------------------------------------------ *)
(** ** The resource adapter: [Read], [Delete] and the requests of [Create] *)

Section AdapterResults.
Context {W : Type} `{GoLibrary}.
Implicit Types (c : Client W) (w : W) (d : schema.ResourceData).

Lemma Set_keeps (d : schema.ResourceData) (key value : string) :
  let '(d', err) := schema.Set_ d key value in
  schema.Id d' = schema.Id d
  /\ schema.schema d' = schema.schema d
  /\ (forall k : string, k <> key -> schema.Get d' k = schema.Get d k)
  /\ (err <> None -> d' = d)
  /\ (err = None -> schema.Get d' key = value).
Proof.
  unfold schema.Set_. destruct (schema.schema d !! key).
  - repeat split; try congruence.
    + intros k Hk. unfold schema.Get. cbn. rewrite lookup_insert_ne by congruence. reflexivity.
    + intros _. unfold schema.Get. cbn. rewrite lookup_insert_eq. reflexivity.
  - repeat split; congruence.
Qed.

(** The paths of [Read]: it returns on each of them. *)
Lemma Read_cases d c w :
  exists (e : option EnvironmentVariable) (err : option error) (w' : W),
    GetEnvironmentVariable c (schema.Get d "project") (schema.Get d "name") w
    = (Returned (e, err), w')
    /\ match err, e with
       | Some x, _ =>
           resourceCircleCIEnvironmentVariableRead d c w = (Returned (d, Some x), w')
       | None, Some envVar =>
           resourceCircleCIEnvironmentVariableRead d c w
           = (Returned (schema.Set_ d "name" (Name envVar)), w')
       | None, None => False
       end.
Proof.
  destruct (GetEnvironmentVariable_returns c (schema.Get d "project") (schema.Get d "name") w)
    as ([e err] & w' & Hget).
  exists e, err, w'. split; [exact Hget|].
  unfold resourceCircleCIEnvironmentVariableRead. go_unfold. rewrite Hget.
  destruct err as [x|]; [reflexivity|]. destruct e as [envVar|].
  - destruct (schema.Set_ d "name" (Name envVar)) as [d' [err|]]; reflexivity.
  - revert Hget. rewrite GetEnvironmentVariable_run. destruct (url_Parse _); [discriminate|].
    destruct (http.Do _ _ _) as [[resp|err] w1]; [|discriminate].
    destruct (http.StatusCode resp =? 200); [|discriminate].
    destruct (json_Decode _); discriminate.
Qed.

(** X9: [Read] never panics: the variable it dereferences is not nil.  It
    returns the error of the client as it is, with the record
    untouched.  Otherwise it stores the name that the remote system
    returned and nothing else: the identity and every other field, the
    value among them, stay as they were. *)
Theorem Read_refreshes_name d c w :
  exists (d' : schema.ResourceData) (r : option error) (w' : W),
    resourceCircleCIEnvironmentVariableRead d c w = (Returned (d', r), w')
    /\ schema.Id d' = schema.Id d
    /\ (forall k : string, k <> "name" -> schema.Get d' k = schema.Get d k)
    /\ (r <> None -> d' = d)
    /\ (forall x : error,
          fst (GetEnvironmentVariable c (schema.Get d "project") (schema.Get d "name") w)
          = Returned (None, Some x) ->
          r = Some x)
    /\ (r = None ->
        exists envVar : EnvironmentVariable,
          GetEnvironmentVariable c (schema.Get d "project") (schema.Get d "name") w
          = (Returned (Some envVar, None), w')
          /\ schema.Get d' "name" = Name envVar).
Proof.
  destruct (Read_cases d c w) as (e & err & w' & Hget & Hread).
  destruct err as [x|].
  - exists d, (Some x), w'. rewrite Hget. repeat split; try congruence.
    cbn. intros x' [= _ ->]. reflexivity.
  - destruct e as [envVar|]; [|contradiction].
    pose proof (Set_keeps d "name" (Name envVar)) as Hset.
    destruct (schema.Set_ d "name" (Name envVar)) as [d' r].
    destruct Hset as (Hid & _ & Hother & Herr & Hname).
    exists d', r, w'. rewrite Hget. repeat split; auto.
    + cbn. discriminate.
    + intros ->. exists envVar. split; [reflexivity|]. apply Hname. reflexivity.
Qed.

(** X10: [Delete] never panics.  When the client's delete fails, [Delete]
    returns its error as it is and the record is untouched, identity
    included; when it succeeds, [Delete] clears the identity and keeps
    the fields. *)
Theorem Delete_clears_identity d c w :
  exists (d' : schema.ResourceData) (r : option error) (w' : W),
    DeleteEnvironmentVariable c (schema.Get d "project") (schema.Get d "name") w
    = (Returned r, w')
    /\ resourceCircleCIEnvironmentVariableDelete d c w = (Returned (d', r), w')
    /\ schema.fields d' = schema.fields d
    /\ (r <> None -> d' = d)
    /\ (r = None -> schema.Id d' = EmptyString).
Proof.
  destruct (DeleteEnvironmentVariable_returns c (schema.Get d "project") (schema.Get d "name") w)
    as (r & w' & Hdel).
  unfold resourceCircleCIEnvironmentVariableDelete. go_unfold. rewrite Hdel.
  destruct r as [x|].
  - exists d, (Some x), w'. repeat split; congruence.
  - exists (schema.SetId d EmptyString), None, w'. repeat split; congruence.
Qed.

Lemma EnvironmentVariableExists_ok_parses c (projectName envName : string) w
    (found : bool) (w' : W) :
  EnvironmentVariableExists c projectName envName w = (Returned (found, None), w') ->
  parses (variableURL c projectName envName) = true.
Proof.
  rewrite EnvironmentVariableExists_run. unfold parses.
  destruct (url_Parse _); [discriminate|reflexivity].
Qed.

Lemma AddEnvironmentVariable_ok_sent c (projectName envName envValue : string) w (w' : W) :
  AddEnvironmentVariable c projectName envName envValue w = (Returned None, w') ->
  exists body : string,
    json_Encode {| Name := envName; Value := envValue |} = inl body
    /\ parses (buildApiURL c projectName envvarEndpoint) = true.
Proof.
  rewrite AddEnvironmentVariable_run. unfold parses.
  destruct (json_Encode _) as [body|]; [|discriminate].
  destruct (url_Parse _); [discriminate|]. eauto.
Qed.

Lemma GetEnvironmentVariable_ok_parses c (projectName envName : string) w
    (e : option EnvironmentVariable) (w' : W) :
  GetEnvironmentVariable c projectName envName w = (Returned (e, None), w') ->
  parses (variableURL c projectName envName) = true.
Proof.
  rewrite GetEnvironmentVariable_run. unfold parses.
  destruct (url_Parse _); [discriminate|reflexivity].
Qed.

End AdapterResults.

Section CreateRequests.
Context {W : Type} `{GoLibrary}.
Implicit Types (c : Client W) (w : W) (d : schema.ResourceData).

(** X11: [Create] never panics.  The requests it sends are, in this order, a
    beginning of: the existence check, the creation, the read; it sends
    nothing else, and no request twice.  When it returns no error it
    has sent all three, the identity of the record is the configured
    name, and every field but the name is as it was configured. *)
Theorem Create_requests d c w (log : list http.Request) :
  let projectName := schema.Get d "project" in
  let envName := schema.Get d "name" in
  let envValue := schema.Get d "value" in
  let expected :=
    existsRequest c projectName envName
    :: match json_Encode {| Name := envName; Value := envValue |} with
       | inl body => [createRequest c projectName body; readRequest c projectName envName]
       | inr _ => []
       end in
  exists (d' : schema.ResourceData) (r : option error) (w' : W) (sent : list http.Request),
    resourceCircleCIEnvironmentVariableCreate d (traced c) (w, log)
    = (Returned (d', r), (w', log ++ sent))
    /\ (exists rest : list http.Request, expected = sent ++ rest)
    /\ (r = None ->
        sent = expected
        /\ schema.Id d' = envName
        /\ forall k : string, k <> "name" -> schema.Get d' k = schema.Get d k).
Proof.
  intros projectName envName envValue expected.
  destruct (Create_cases d (traced c) (w, log)) as (found & err & wl1 & Hex & Hcases).
  fold projectName envName envValue in Hex, Hcases.
  rewrite EnvironmentVariableExists_traced in Hex.
  destruct (EnvironmentVariableExists c projectName envName w) as [res1 w1] eqn:Hex0.
  injection Hex as -> <-.
  assert (Hsent1 : forall b : bool, exists rest : list http.Request,
             expected = sentIf b (existsRequest c projectName envName) ++ rest)
    by (intros [|]; eexists; reflexivity).
  destruct err as [e|]; [|destruct found].
  { exists d, (Some e), w1. eexists. split; [exact Hcases|]. split; [apply Hsent1|discriminate]. }
  { eexists d, _, w1, _. split; [exact Hcases|]. split; [apply Hsent1|discriminate]. }
  rewrite (EnvironmentVariableExists_ok_parses c _ _ _ _ _ Hex0) in Hcases. clear Hsent1.
  destruct Hcases as (r & wl2 & Hadd & Hcases).
  rewrite AddEnvironmentVariable_traced in Hadd.
  destruct (AddEnvironmentVariable c projectName envName envValue w1) as [res2 w2] eqn:Hadd0.
  injection Hadd as -> <-.
  destruct r as [e|].
  { exists d, (Some e), w2. eexists. rewrite <- app_assoc in Hcases.
    split; [exact Hcases|]. split; [|discriminate]. subst expected.
    destruct (json_Encode _) as [body|]; [|eexists; reflexivity].
    destruct (parses _); eexists; reflexivity. }
  destruct (AddEnvironmentVariable_ok_sent c _ _ _ _ _ Hadd0) as (body & Henc & Hurl).
  fold envName envValue in Henc. subst expected. rewrite Henc in Hcases |- *.
  rewrite Hurl in Hcases. cbn [sentIf] in Hcases. rewrite Hcases.
  destruct (Read_cases (schema.SetId d envName) (traced c)
              (w2, (log ++ [existsRequest c projectName envName])
                   ++ [createRequest c projectName body]))
    as (e & err & wl3 & Hget & Hread).
  change (schema.Get (schema.SetId d envName) "project") with projectName in Hget.
  change (schema.Get (schema.SetId d envName) "name") with envName in Hget.
  rewrite GetEnvironmentVariable_traced in Hget.
  destruct (GetEnvironmentVariable c projectName envName w2) as [res3 w3] eqn:Hget0.
  injection Hget as -> <-.
  destruct err as [x|].
  { rewrite Hread, <- !app_assoc. cbn [app].
    eexists _, _, w3, _. split; [reflexivity|]. split; [|discriminate].
    destruct (parses (variableURL c projectName envName)); eexists; reflexivity. }
  destruct e as [envVar|]; [|contradiction].
  rewrite (GetEnvironmentVariable_ok_parses c _ _ _ _ _ Hget0) in Hread. cbn [sentIf] in Hread.
  rewrite Hread, <- !app_assoc. cbn [app].
  pose proof (Set_keeps (schema.SetId d envName) "name" (Name envVar)) as Hset.
  destruct (schema.Set_ (schema.SetId d envName) "name" (Name envVar)) as [d' r].
  destruct Hset as (Hid & _ & Hother & _ & _).
  exists d', r, w3. eexists. split; [reflexivity|]. split; [exists []; reflexivity|].
  intros _. split; [reflexivity|]. split; [exact Hid|exact Hother].
Qed.

End CreateRequests.

(* ------------------------------------------------------------------ *)
(** ** The text of the hash *)

Lemma enc_base64digit (v : Z) : base64digit (base64.enc v) = true.
Proof.
  unfold base64.enc. change 63 with (Z.ones 6). rewrite Z.land_ones by lia.
  assert (Hn : (Z.to_nat (v mod 2 ^ 6) < 64)%nat)
    by (pose proof (Z.mod_pos_bound v (2 ^ 6)); lia).
  revert Hn. generalize (Z.to_nat (v mod 2 ^ 6)) as n. intros n Hn.
  do 64 (destruct n as [|n]; [reflexivity|]). lia.
Qed.

(** X12: for every text, [hashString] gives 43 characters of the base64
    alphabet followed by one padding character: the stored form of a
    value is printable whatever bytes the value holds. *)
Theorem hashString_text (str : string) :
  hashString str = String.substring 0 43 (hashString str) +:+ "="
  /\ String.length (String.substring 0 43 (hashString str)) = 43%nat
  /\ allb base64digit (String.substring 0 43 (hashString str)) = true.
Proof.
  unfold hashString. pose proof (Sum256_length (bytes_of_string str)) as Hlen.
  revert Hlen. generalize (sha256.Sum256 (bytes_of_string str)) as hash. intros hash Hlen.
  do 32 (destruct hash as [|? hash]; [discriminate Hlen|]).
  destruct hash; [|discriminate Hlen]. clear Hlen.
  cbn -[base64.enc]. rewrite !enc_base64digit. repeat split.
Qed.

(* ------------------------------------------------------------------ *)
(** ** The properties above on the client of the tests *)

Lemma GetEnvironmentVariable_status_witness :
  @GetEnvironmentVariable unit goStd (testClient (answer 200 "not json")) "bar" "key" tt
    = (Returned (None, Some (Errorf "json: syntax error")), tt)
  /\ @GetEnvironmentVariable unit goStd (testClient (answer 200 EmptyString))
       "bar" (String "010" "key") tt
    = (Returned (None,
         Some (Errorf ("parse https://circleci.com/api/v1.1/project/github/foo/bar/envvar/"
                       +:+ String "010" "key" +:+ ": net/url: invalid control character in URL"))),
       tt).
Proof.
  split.
  - destruct (proj2 (@GetEnvironmentVariable_status unit goStd
                       (testClient (answer 200 "not json")) "bar" "key" tt)
                _ tt eq_refl eq_refl) as (res & Hrun & _ & H200).
    rewrite Hrun, (H200 eq_refl). reflexivity.
  - apply (proj1 (@GetEnvironmentVariable_status unit goStd
                    (testClient (answer 200 EmptyString)) "bar" (String "010" "key") tt)).
    reflexivity.
Defined.

Lemma GetEnvironmentVariable_result_witness :
  @GetEnvironmentVariable unit goStd (testClient (answer 400 EmptyString)) "bar" "key" tt
    = (Returned (None,
         Some (Errorf "circleci: wrong status code 400 getting environment variable")), tt)
  /\ (@None EnvironmentVariable = None
      <-> Some (Errorf "circleci: wrong status code 400 getting environment variable") <> None).
Proof.
  split; [reflexivity|].
  apply (@GetEnvironmentVariable_result unit goStd (testClient (answer 400 EmptyString))
           "bar" "key" tt _ _ tt).
  reflexivity.
Defined.

Lemma EnvironmentVariableExists_result_witness :
  exists found : bool,
    @EnvironmentVariableExists unit goStd (testClient (answer 503 EmptyString)) "bar" "key" tt
      = (Returned (found,
           Some (Errorf "circleci: wrong status code 503 getting environment variable")), tt)
    /\ found = false.
Proof.
  eexists. split; [reflexivity|].
  apply (@EnvironmentVariableExists_result unit goStd (testClient (answer 503 EmptyString))
           "bar" "key" tt _
           (Errorf "circleci: wrong status code 503 getting environment variable") tt).
  reflexivity.
Defined.


Lemma Read_refreshes_name_witness :
  let c := testClient (answer 200 (json.dq "{'name':'KEY','value':'xxxx'}")) in
  exists (d' : schema.ResourceData) (w' : unit),
    @resourceCircleCIEnvironmentVariableRead unit goStd barKey c tt = (Returned (d', None), w')
    /\ schema.Get d' "name" = "KEY"
    /\ schema.Get d' "value" = "value"
    /\ schema.Id d' = EmptyString.
Proof.
  intros c.
  destruct (@Read_refreshes_name unit goStd barKey c tt)
    as (d' & r & w' & Hrun & Hid & Hother & _ & _ & Hok).
  assert (Hr : r = None).
  { apply (f_equal (fun x => match fst x with
                             | Returned (_, r) => r
                             | Panicked _ => None
                             end)) in Hrun.
    vm_compute in Hrun. symmetry. exact Hrun. }
  subst r. exists d', w'. split; [exact Hrun|].
  destruct (Hok eq_refl) as (envVar & Hget & Hname).
  vm_compute in Hget. injection Hget as <- _.
  split; [exact Hname|]. split; [apply Hother; discriminate|exact Hid].
Defined.

Lemma Delete_clears_identity_witness :
  let d := schema.SetId barKey "key" in
  (exists d' : schema.ResourceData,
      fst (@resourceCircleCIEnvironmentVariableDelete unit goStd d
             (testClient (answer 404 EmptyString)) tt)
      = Returned (d', Some (Errorf "circleci: wrong status code 404 deleting environment variable"))
      /\ d' = d)
  /\ (exists d' : schema.ResourceData,
        fst (@resourceCircleCIEnvironmentVariableDelete unit goStd d
               (testClient (answer 200 EmptyString)) tt)
        = Returned (d', None)
        /\ schema.Id d' = EmptyString).
Proof.
  intros d. split.
  - destruct (@Delete_clears_identity unit goStd d (testClient (answer 404 EmptyString)) tt)
      as (d' & r & w' & Hdel & Hrun & _ & Herr & _).
    vm_compute in Hdel. injection Hdel as <- _.
    exists d'. rewrite Hrun. split; [reflexivity|]. apply Herr. discriminate.
  - destruct (@Delete_clears_identity unit goStd d (testClient (answer 200 EmptyString)) tt)
      as (d' & r & w' & Hdel & Hrun & _ & _ & Hok).
    vm_compute in Hdel. injection Hdel as <- _.
    exists d'. rewrite Hrun. split; [reflexivity|]. apply Hok. reflexivity.
Defined.

Lemma Create_requests_witness :
  let c := testClient (byMethod (status 404) (status 201)
                         (inl {| http.StatusCode := 200;
                                 http.Body := json.dq "{'name':'key','value':'xxxx'}" |})) in
  exists (d' : schema.ResourceData) (w' : unit),
    @resourceCircleCIEnvironmentVariableCreate _ goStd barKey (traced c) (tt, [])
    = (Returned (d', None),
       (w', [existsRequest c "bar" "key";
             createRequest c "bar"
               (json.dq "{'name':'key','value':'value'}" +:+ String "010" EmptyString);
             readRequest c "bar" "key"]))
    /\ schema.Id d' = "key"
    /\ schema.Get d' "value" = "value".
Proof.
  intros c.
  destruct (@Create_requests unit goStd barKey c tt [])
    as (d' & r & w' & sent & Hrun & _ & Hok).
  assert (Hr : r = None).
  { apply (f_equal (fun x => match fst x with
                             | Returned (_, r) => r
                             | Panicked _ => None
                             end)) in Hrun.
    vm_compute in Hrun. symmetry. exact Hrun. }
  subst r. destruct (Hok eq_refl) as (-> & Hid & Hother).
  exists d', w'. split; [exact Hrun|]. split; [exact Hid|]. apply Hother. discriminate.
Defined.

(* ------------------------------------------------------------------ *)
(** ** The URLs *)


